(** * mev-boost-relay: the proposer API and the common types

    A shallow embedding of [common/types.go] (builder entries and network
    details) and of the proposer API (service start and stop, the
    register / get-header / get-payload handlers), with the properties of
    the specification stated over it.

    Go values are embedded as follows.
    - [string] is a Go string (a byte sequence; [String.length] is [len]).
    - [uint64] is a [Z] with the wrap-around written out ([wrap64]).
    - a pointer is an [option], [None] being [nil]; dereferencing [nil]
      panics, which the [Go] monad below records.
    - an [error] is an [option string], [None] being [nil].
    - calls on collaborators (datastore, signature check, logger) are
      recorded, in program order, in a trace of [Event]s. *)

From Stdlib Require Import ZArith List Bool Lia String Ascii.
Import ListNotations.
Open Scope string_scope.
Open Scope Z_scope.

Definition error := option string.
Definition bytes := list Z.

(** ** strconv.ParseUint, at base 10 and bit size 64

    Go's standard library, specialised to the only arguments the relay
    passes ([strconv.ParseUint(slot, 10, 64)]): no base prefix and no
    underscores are accepted at an explicit base. *)
Module strconv.

Inductive NumError := ErrSyntax | ErrRange.

Definition maxUint64 : Z := 18446744073709551615.
Definition wrap64 (z : Z) : Z := z mod 18446744073709551616.

Definition byte_of (c : ascii) : Z := Z.of_N (N_of_ascii c).

(** [lower(c)] of strconv: [c | ('x' - 'X')]. *)
Definition lower (c : Z) : Z := Z.lor c 32.

(** The digit a byte stands for, [None] for the [default] branch. *)
Definition digit (c : ascii) : option Z :=
  let b := byte_of c in
  if (48 <=? b) && (b <=? 57) then Some (b - 48)
  else if (97 <=? lower b) && (lower b <=? 122) then Some (lower b - 97 + 10)
  else None.

Definition base : Z := 10.
Definition cutoff : Z := maxUint64 / 10 + 1.
Definition maxVal : Z := maxUint64.

(** The loop over the bytes of the string, [n] being the accumulator. *)
Fixpoint parse_loop (n : Z) (s : string) : Z * option NumError :=
  match s with
  | EmptyString => (n, None)
  | String c rest =>
      match digit c with
      | None => (0, Some ErrSyntax)
      | Some d =>
          if base <=? d then (0, Some ErrSyntax)
          else if cutoff <=? n then (maxVal, Some ErrRange)
          else
            let n' := wrap64 (n * base) in
            let n1 := wrap64 (n' + d) in
            if (n1 <? n') || (maxVal <? n1) then (maxVal, Some ErrRange)
            else parse_loop n1 rest
      end
  end.

Definition ParseUint (s : string) : Z * option NumError :=
  match s with
  | EmptyString => (0, Some ErrSyntax)
  | _ => parse_loop 0 s
  end.

(** Reading of a string as a decimal numeral, for stating what is parsed. *)
Definition is_decimal_digit (c : ascii) : bool :=
  (48 <=? byte_of c) && (byte_of c <=? 57).

Fixpoint all_digits (s : string) : bool :=
  match s with
  | EmptyString => true
  | String c rest => is_decimal_digit c && all_digits rest
  end.

Fixpoint decimal (acc : Z) (s : string) : Z :=
  match s with
  | EmptyString => acc
  | String c rest => decimal (acc * 10 + (byte_of c - 48)) rest
  end.

Definition decimal_value (s : string) : Z := decimal 0 s.

End strconv.

(** ** Outcomes of Go calls: a normal return or a run-time panic *)
Module Go.

Inductive Outcome (A : Type) : Type :=
| Returns (a : A)
| Panics (reason : string).
Arguments Returns {A} a.
Arguments Panics {A} reason.

Definition bind {A B} (m : Outcome A) (k : A -> Outcome B) : Outcome B :=
  match m with
  | Returns a => k a
  | Panics r => Panics r
  end.

(** [p.f] on a pointer [p]: a nil pointer dereference panics. *)
Definition deref {A} (p : option A) : Outcome A :=
  match p with
  | Some a => Returns a
  | None => Panics "invalid memory address or nil pointer dereference"
  end.

End Go.

Notation "x <- m ;; k" := (Go.bind m (fun x => k))
  (at level 61, m at next level, right associativity).

(** ** net/url: the fields of [url.URL] the relay reads *)
Module url.

Record Userinfo := { username : string; password : option string }.

Record URL := {
  Scheme : string;
  User : option Userinfo;
  Host : string;
  Path : string
}.

(** The method [Username] of a [Userinfo] pointer, which accepts a nil receiver. *)
Definition Username (u : option Userinfo) : string :=
  match u with
  | None => ""
  | Some i => username i
  end.

End url.

(** ** package common, [types.go] *)
Module common.

Record BuilderEntry := {
  Address : string;
  Pubkey : bytes;
  URL : option url.URL
}.

Section Builder.
(** [url.Parse] and [hexutil.Bytes.UnmarshalText] belong to libraries
    outside the repository; the entry constructor is stated over any
    behaviour of theirs. *)
Variable url_Parse : string -> option url.URL * error.
Variable hexutil_UnmarshalText : string -> string + bytes.

Definition withScheme (builderURL : string) : string :=
  if negb (String.prefix "http" builderURL)
  then "http://" ++ builderURL
  else builderURL.

(** [entry] is the named result, nil until it is assigned; the composite
    literal on the right of the assignment reads [entry.URL] before the
    assignment takes place. *)
Definition NewBuilderEntry (builderURL : string)
  : Go.Outcome (option BuilderEntry * error) :=
  let entry : option BuilderEntry := None in
  let builderURL := withScheme builderURL in
  let '(url, err) := url_Parse builderURL in
  match err with
  | Some _ => Go.Returns (entry, err)
  | None =>
      e0 <- Go.deref entry ;;
      u0 <- Go.deref (URL e0) ;;
      let scheme := url.Scheme u0 in
      e1 <- Go.deref entry ;;
      u1 <- Go.deref (URL e1) ;;
      let host := url.Host u1 in
      let entry :=
        Some {| Address := scheme ++ "://" ++ host; Pubkey := []; URL := url |} in
      e2 <- Go.deref entry ;;
      u2 <- Go.deref (URL e2) ;;
      match hexutil_UnmarshalText (url.Username (url.User u2)) with
      | inl msg => Go.Returns (entry, Some msg)
      | inr pk =>
          Go.Returns
            (Some {| Address := Address e2; Pubkey := pk; URL := URL e2 |}, None)
      end
  end.
End Builder.

Record EthNetworkDetails := {
  Name : string;
  GenesisForkVersionHex : string;
  GenesisValidatorsRootHex : string;
  BellatrixForkVersionHex : string
}.

Definition EthNetworkKiln := "kiln".
Definition EthNetworkRopsten := "ropsten".
Definition EthNetworkSepolia := "sepolia".
Definition EthNetworkGoerliShadowFork5 := "goerli-shadow-fork-5".

Definition GenesisValidatorsRootGoerliShadowFork5 :=
  "0xe45f26d5a29b0ed5a9f62f248b842a30dd7b7fba0b5b104eab271efc04e0cf66".
Definition GenesisForkVersionGoerliShadowFork5 := "0x13001034".
Definition BellatrixForkVersionGoerliShadowFork5 := "0x22001034".

(** The constants of go-boost-utils' [types] package for the networks
    whose values are not defined in this repository. *)
Record NetworkConstants := {
  GenesisForkVersionKiln : string;
  GenesisValidatorsRootKiln : string;
  BellatrixForkVersionKiln : string;
  GenesisForkVersionRopsten : string;
  GenesisValidatorsRootRopsten : string;
  BellatrixForkVersionRopsten : string;
  GenesisForkVersionSepolia : string;
  GenesisValidatorsRootSepolia : string;
  BellatrixForkVersionSepolia : string
}.

Section Network.
Variable types : NetworkConstants.

Definition withVersions (ret : EthNetworkDetails) (fork root bellatrix : string)
  : EthNetworkDetails :=
  {| Name := Name ret;
     GenesisForkVersionHex := fork;
     GenesisValidatorsRootHex := root;
     BellatrixForkVersionHex := bellatrix |}.

Definition NewEthNetworkDetails (networkName : string)
  : option EthNetworkDetails * error :=
  let ret := {| Name := networkName;
                GenesisForkVersionHex := "";
                GenesisValidatorsRootHex := "";
                BellatrixForkVersionHex := "" |} in
  if (networkName =? EthNetworkKiln)%string then
    (Some (withVersions ret (GenesisForkVersionKiln types)
             (GenesisValidatorsRootKiln types) (BellatrixForkVersionKiln types)), None)
  else if (networkName =? EthNetworkRopsten)%string then
    (Some (withVersions ret (GenesisForkVersionRopsten types)
             (GenesisValidatorsRootRopsten types) (BellatrixForkVersionRopsten types)), None)
  else if (networkName =? EthNetworkSepolia)%string then
    (Some (withVersions ret (GenesisForkVersionSepolia types)
             (GenesisValidatorsRootSepolia types) (BellatrixForkVersionSepolia types)), None)
  else if (networkName =? EthNetworkGoerliShadowFork5)%string then
    (Some (withVersions ret GenesisForkVersionGoerliShadowFork5
             GenesisValidatorsRootGoerliShadowFork5
             BellatrixForkVersionGoerliShadowFork5), None)
  else (None, Some ("unknown network: " ++ networkName)).

(** Modelled from the spec: [ComputerBuilderSigningDomain] is declared in a
    file of package common that is not part of the sources at hand; the
    spec has the signing domain derived deterministically from the genesis
    fork version, so it is a function [computeDomain] of that string. *)
Variable computeDomain : string -> bytes * error.

Definition ComputerBuilderSigningDomain (genesisForkVersionHex : string)
  : bytes * error :=
  computeDomain genesisForkVersionHex.

(** Modelled from the spec: the resolution of a network name down to its
    signing domain, the details first and the domain from their genesis
    fork version; the code that chains the two is not part of the sources
    at hand. *)
Definition resolveSigningDomain (networkName : string) : option bytes * error :=
  match NewEthNetworkDetails networkName with
  | (Some details, None) =>
      match ComputerBuilderSigningDomain (GenesisForkVersionHex details) with
      | (domain, None) => (Some domain, None)
      | (_, Some e) => (None, Some e)
      end
  | (_, err) => (None, err)
  end.
End Network.

(** Modelled from the spec: the error values and the empty response of
    package common live in files that are not part of the sources at hand;
    the spec names four fixed error strings and an empty JSON response. *)
Definition ErrInvalidSlot := "invalid slot".
Definition ErrInvalidPubkey := "invalid pubkey".
Definition ErrInvalidHash := "invalid hash".
Definition ErrInvalidSignature := "invalid signature".

End common.

(** ** net/http and encoding/json: the response writer *)
Module http.

Definition StatusOK : Z := 200.
Definition StatusNoContent : Z := 204.
Definition StatusBadRequest : Z := 400.
Definition StatusInternalServerError : Z := 500.

(** What a handler encodes: the empty response of package common or an
    error response carrying a code and a message. *)
Inductive JSON :=
| NilResponse
| ErrorResponse (code : Z) (message : string).

Inductive Chunk :=
| Encoded (v : JSON)
| Raw (text : string).

(** The two writers a handler meets: the connection of a running server,
    which refuses a body at the statuses that allow none
    ([bodyAllowedForStatus] of net/http), and the recorder of a test,
    which takes any. *)
Inductive WriterKind := ServerConn | Recorder.

Definition bodyAllowedForStatus (code : Z) : bool :=
  if (100 <=? code) && (code <=? 199) then false
  else if code =? 204 then false
  else if code =? 304 then false
  else true.

(** [status] is the status line once it is written, [body] what was
    written after it. *)
Record ResponseWriter := {
  kind : WriterKind;
  Header : list (string * string);
  status : option Z;
  body : list Chunk
}.

Definition NewWriter (k : WriterKind) : ResponseWriter :=
  {| kind := k; Header := []; status := None; body := [] |}.

Definition allowsBody (w : ResponseWriter) (code : Z) : bool :=
  match kind w with
  | ServerConn => bodyAllowedForStatus code
  | Recorder => true
  end.

(** [w.Header().Set(key, value)]; the newest entry of a key is the one
    in force. *)
Definition Set_ (key value : string) (w : ResponseWriter) : ResponseWriter :=
  {| kind := kind w; Header := (key, value) :: Header w; status := status w;
     body := body w |}.

(** A second [WriteHeader] is superfluous and ignored. *)
Definition WriteHeader (code : Z) (w : ResponseWriter) : ResponseWriter :=
  match status w with
  | Some _ => w
  | None => {| kind := kind w; Header := Header w; status := Some code;
               body := body w |}
  end.

Definition ErrBodyNotAllowed :=
  "http: request method or response status code does not allow body".

(** [Write] sends the status 200 first when none was written. *)
Definition Write (c : Chunk) (w : ResponseWriter) : ResponseWriter * error :=
  let w := WriteHeader StatusOK w in
  match status w with
  | Some code =>
      if allowsBody w code
      then ({| kind := kind w; Header := Header w; status := status w;
               body := (body w ++ [c])%list |}, None)
      else (w, Some ErrBodyNotAllowed)
  | None => (w, Some ErrBodyNotAllowed)
  end.

(** [json.NewEncoder(w).Encode(v)] *)
Definition Encode (v : JSON) (w : ResponseWriter) : ResponseWriter * error :=
  Write (Encoded v) w.

Definition newline : string := String (ascii_of_nat 10) "".

(** [http.Error(w, msg, code)]: the message goes out by [fmt.Fprintln],
    whose result is dropped. *)
Definition Error (w : ResponseWriter) (msg : string) (code : Z) : ResponseWriter :=
  let w := Set_ "Content-Type" "text/plain; charset=utf-8" w in
  let w := Set_ "X-Content-Type-Options" "nosniff" w in
  let w := WriteHeader code w in
  fst (Write (Raw (msg ++ newline)) w).

End http.

(** ** package proposer *)
Module proposer.

(** The registration and block types of go-boost-utils. Keys and
    signatures are byte strings whose length the handlers check. *)
Record RegisterValidatorRequestMessage := {
  FeeRecipient : bytes;
  GasLimit : Z;
  Timestamp : Z;
  Pubkey : bytes
}.

Record SignedValidatorRegistration := {
  Message : RegisterValidatorRequestMessage;
  Signature : bytes
}.

Record SignedBlindedBeaconBlock := {
  BlockMessage : bytes;
  BlockSignature : bytes
}.

(** Modelled from the spec: the datastore interface is declared in package
    datastore, which is not part of the sources at hand; the spec lists
    a membership query, a refresh returning a count and an error, and a
    registration update returning an error. [DS] is the store's state. *)
Record ProposerDatastore (DS : Type) := {
  IsKnownValidator : DS -> string -> bool;
  RefreshKnownValidators : DS -> DS * (Z * error);
  UpdateValidatorRegistration : DS -> SignedValidatorRegistration -> DS * error
}.
Arguments IsKnownValidator {DS}.
Arguments RefreshKnownValidators {DS}.
Arguments UpdateValidatorRegistration {DS}.

(** The library calls of the handlers: the hex form of a public key
    ([types.NewPubkeyHex(pk.String())]), the signature check, and the
    JSON decoders of the two request bodies. *)
Record Libraries := {
  NewPubkeyHex : bytes -> string;
  VerifySignature :
    RegisterValidatorRequestMessage -> bytes -> bytes -> bytes -> bool * error;
  DecodeRegistrations : string -> string + list SignedValidatorRegistration;
  DecodeBlock : string -> string + SignedBlindedBeaconBlock
}.

Inductive Level := Info | Warn | Error.

(** What a run does to its collaborators, in program order. *)
Inductive Event :=
| EvLog (level : Level) (msg : string)
| EvRefreshKnownValidators (cnt : Z) (err : error)
| EvIsKnownValidator (pubkey : string) (known : bool)
| EvVerifySignature (registration : SignedValidatorRegistration) (ok : bool) (err : error)
| EvUpdateValidatorRegistration (registration : SignedValidatorRegistration) (err : error).

Definition is_refresh (e : Event) : bool :=
  match e with EvRefreshKnownValidators _ _ => true | _ => false end.
Definition is_log (e : Event) : bool :=
  match e with EvLog _ _ => true | _ => false end.

(** The calls on collaborators, without the log records. *)
Definition calls (t : list Event) : list Event := filter (fun e => negb (is_log e)) t.

(** [context.Context]: the done channel is closed once the owner cancels. *)
Record Context := { cancelled : bool }.
Record Channel := { closed : bool }.
Definition Done (c : Context) : Channel := {| closed := cancelled c |}.

Definition NoneKnownMsg := "updated known validators, but have not received any".
Definition UpdatedMsg := "updated known validators".

Definition logKnownValidators (cnt : Z) : Event :=
  if cnt =? 0 then EvLog Warn NoneKnownMsg else EvLog Info UpdatedMsg.

(** Modelled from the spec: [RespondError], [RespondOK] and [RespondOKEmpty]
    are methods of [common.BaseAPI], declared in a file that is not part of
    the sources at hand; the spec has them answer with the given status and
    the error message, with status 200 and the value as JSON, and with
    status 200 and no body. *)
Definition RespondError (w : http.ResponseWriter) (code : Z) (message : string)
  : http.ResponseWriter :=
  let w := http.Set_ "Content-Type" "application/json" w in
  let w := http.WriteHeader code w in
  fst (http.Encode (http.ErrorResponse code message) w).

Definition RespondOK (w : http.ResponseWriter) (v : http.JSON) : http.ResponseWriter :=
  let w := http.Set_ "Content-Type" "application/json" w in
  let w := http.WriteHeader http.StatusOK w in
  fst (http.Encode v w).

Definition RespondOKEmpty (w : http.ResponseWriter) : http.ResponseWriter :=
  http.WriteHeader http.StatusOK w.

Section API.
Context {DS : Type}.
Variable store : ProposerDatastore DS.
Variable lib : Libraries.

Record ProposerAPI := {
  ctx : Context;
  datastore : DS;
  builderSigningDomain : bytes
}.

Definition withStore (api : ProposerAPI) (ds : DS) : ProposerAPI :=
  {| ctx := ctx api; datastore := ds;
     builderSigningDomain := builderSigningDomain api |}.

Definition withContext (api : ProposerAPI) (c : Context) : ProposerAPI :=
  {| ctx := c; datastore := datastore api;
     builderSigningDomain := builderSigningDomain api |}.

(** *** The service: [Start], the refresh goroutines, [Stop] *)

Inductive Goroutine := NotStarted | Waiting | Exited.

(** The API object, the goroutines [Start] has spawned so far ([spawned]),
    those of them still blocked in their [select] ([waiting]), and the
    trace so far. Every successful [Start] spawns one more goroutine. *)
Record Service := {
  api : ProposerAPI;
  spawned : nat;
  waiting : nat;
  trace : list Event
}.

(** The refresh task as a whole: not started while no goroutine was
    spawned, waiting while one of them still waits, exited afterwards. *)
Definition refresher (s : Service) : Goroutine :=
  match waiting s, spawned s with
  | S _, _ => Waiting
  | O, S _ => Exited
  | O, O => NotStarted
  end.

Definition emit (s : Service) (evs : list Event) : Service :=
  {| api := api s; spawned := spawned s; waiting := waiting s;
     trace := (trace s ++ evs)%list |}.

(** The [go] statement: one more goroutine, which goes to its [select]. *)
Definition spawn (s : Service) : Service :=
  {| api := api s; spawned := S (spawned s); waiting := S (waiting s);
     trace := trace s |}.

(** One waiting goroutine returns. *)
Definition exitOne (s : Service) : Service :=
  {| api := api s; spawned := spawned s; waiting := Nat.pred (waiting s);
     trace := trace s |}.

(** [api.datastore.RefreshKnownValidators()] on the service's store. *)
Definition refresh (s : Service) : Service * (Z * error) :=
  let '(ds, (cnt, err)) := RefreshKnownValidators store (datastore (api s)) in
  ({| api := withStore (api s) ds; spawned := spawned s; waiting := waiting s;
      trace := (trace s ++ [EvRefreshKnownValidators cnt err])%list |}, (cnt, err)).

(** The body of one goroutine: one [select], after which the function
    returns. [tick] tells whether the ticker's channel is ready. When the
    goroutine waits and no case is ready, it stays blocked. *)
Definition refreshTask (s : Service) (tick : bool) : Service :=
  match waiting s with
  | S _ =>
      if closed (Done (ctx (api s))) then exitOne s
      else if tick then
        let '(s1, (cnt, err)) := refresh s in
        let s2 :=
          match err with
          | Some _ => emit s1 [EvLog Error "error getting known validators"]
          | None => emit s1 [logKnownValidators cnt]
          end in
        exitOne s2
      else s
  | O => s
  end.

(** Every goroutine that waits gets to run its [select]. *)
Definition wake (s : Service) (tick : bool) : Service :=
  Nat.iter (waiting s) (fun s' => refreshTask s' tick) s.

Definition Start (s : Service) : Service * error :=
  let '(s1, (cnt, err)) := refresh s in
  match err with
  | Some _ => (s1, err)
  | None =>
      let s2 := emit s1 [logKnownValidators cnt] in
      (wake (spawn s2) false, None)
  end.

(** [api.ctx.Done()] yields the channel, which [Stop] drops. *)
Definition Stop (s : Service) : Service * error :=
  let _ := Done (ctx (api s)) in
  (s, None).

(** What happens around the service: the owner cancels the context, one
    whole period of the tickers elapses (the ticker of every goroutine
    that waited through it fires), or somebody calls [Stop]. *)
Inductive Env := CancelContext | TickerFires | CallStop.

Definition step (s : Service) (e : Env) : Service :=
  match e with
  | CancelContext =>
      wake
        {| api := withContext (api s) {| cancelled := true |};
           spawned := spawned s; waiting := waiting s; trace := trace s |} false
  | TickerFires => wake s true
  | CallStop => fst (Stop s)
  end.

Definition run (s : Service) (es : list Env) : Service := fold_left step es s.

Definition refreshes (s : Service) : nat := List.length (filter is_refresh (trace s)).

(** *** handleRegisterValidator *)

Definition isSome {A} (o : option A) : bool :=
  match o with Some _ => true | None => false end.

(** The body of the loop over the payload; [continue] ends it early. *)
Definition processRegistration (api : ProposerAPI)
  (registration : SignedValidatorRegistration) : ProposerAPI * list Event :=
  let pubkey := Pubkey (Message registration) in
  if negb (List.length pubkey =? 48)%nat then (api, [])
  else if negb (List.length (Signature registration) =? 96)%nat then (api, [])
  else
    let hex := NewPubkeyHex lib pubkey in
    let isKnownValidator := IsKnownValidator store (datastore api) hex in
    if negb isKnownValidator then
      (api, [EvIsKnownValidator hex false; EvLog Warn "not a known validator"])
    else
      let '(ok, verr) :=
        VerifySignature lib (Message registration) (builderSigningDomain api)
          pubkey (Signature registration) in
      if isSome verr || negb ok then
        (api, [EvIsKnownValidator hex true;
               EvVerifySignature registration ok verr;
               EvLog Warn "failed to verify registerValidator signature"])
      else
        let '(ds, err) :=
          UpdateValidatorRegistration store (datastore api) registration in
        (withStore api ds,
         ([EvIsKnownValidator hex true;
           EvVerifySignature registration ok verr;
           EvUpdateValidatorRegistration registration err]
          ++ match err with
             | Some _ => [EvLog Error "error updating validator registration"]
             | None => []
             end)%list).

Fixpoint registerAll (api : ProposerAPI)
  (payload : list SignedValidatorRegistration) : ProposerAPI * list Event :=
  match payload with
  | [] => (api, [])
  | registration :: rest =>
      let '(api1, evs1) := processRegistration api registration in
      let '(api2, evs2) := registerAll api1 rest in
      (api2, (evs1 ++ evs2)%list)
  end.

Definition handleRegisterValidator (api : ProposerAPI) (w : http.ResponseWriter)
  (body : string) : ProposerAPI * list Event * http.ResponseWriter :=
  let log := [EvLog Info "registerValidator"] in
  match DecodeRegistrations lib body with
  | inl err => (api, log, RespondError w http.StatusBadRequest err)
  | inr payload =>
      let '(api', evs) := registerAll api payload in
      (api', (log ++ evs)%list, RespondOK w http.NilResponse)
  end.

(** *** handleGetHeader, on the variables the router extracts *)

Definition handleGetHeader (w : http.ResponseWriter)
  (slot parentHashHex pubkey : string) : list Event * http.ResponseWriter :=
  let log := [EvLog Info "getHeader"] in
  match snd (strconv.ParseUint slot) with
  | Some _ => (log, RespondError w http.StatusBadRequest common.ErrInvalidSlot)
  | None =>
      if negb (String.length pubkey =? 98)%nat then
        (log, RespondError w http.StatusBadRequest common.ErrInvalidPubkey)
      else if negb (String.length parentHashHex =? 66)%nat then
        (log, RespondError w http.StatusBadRequest common.ErrInvalidHash)
      else
        let w := http.Set_ "Content-Type" "application/json" w in
        let w := http.WriteHeader http.StatusNoContent w in
        let '(w, err) := http.Encode http.NilResponse w in
        match err with
        | Some _ =>
            ((log ++ [EvLog Error "Couldn't write getHeader response"])%list,
             http.Error w "" http.StatusInternalServerError)
        | None => (log, w)
        end
  end.

(** *** handleGetPayload *)

Definition handleGetPayload (w : http.ResponseWriter) (body : string)
  : list Event * http.ResponseWriter :=
  let log := [EvLog Info "getPayload"] in
  match DecodeBlock lib body with
  | inl err => (log, RespondError w http.StatusBadRequest err)
  | inr payload =>
      if negb (List.length (BlockSignature payload) =? 96)%nat then
        (log, RespondError w http.StatusBadRequest common.ErrInvalidSignature)
      else (log, RespondOKEmpty w)
  end.
End API.
Arguments ProposerAPI : clear implicits.
Arguments Service : clear implicits.

(** The slot pattern of [pathGetHeader], [[0-9]+]: one decimal digit or more. *)
Definition slotPattern (slot : string) : bool :=
  negb (slot =? "")%string && strconv.all_digits slot.

(** *** NewProposerAPI *)

(** A logrus entry: the fields attached to it, newest first. *)
Record LogEntry := { fields : list (string * string) }.

Definition WithField (key value : string) (l : LogEntry) : LogEntry :=
  {| fields := (key, value) :: fields l |}.

(** [context.Background()] is never cancelled. *)
Definition Background : Context := {| cancelled := false |}.

(** What the constructor hands out: the API object with the logger of the
    embedded [common.BaseAPI]. *)
Record Component (DS : Type) := {
  object : ProposerAPI DS;
  Log : LogEntry
}.
Arguments object {DS}.
Arguments Log {DS}.

Section Constructor.
Context {DS : Type}.
Variable computeDomain : string -> bytes * error.

(** A nil context, logger or datastore is [None]. The result of the
    domain computation is stored and its error returned beside the object. *)
Definition NewProposerAPI (ctx : option Context) (log : option LogEntry)
  (ds : option DS) (genesisForkVersionHex : string)
  : option (Component DS) * error :=
  let ctx := match ctx with None => Background | Some c => c end in
  match log with
  | None => (None, Some "log parameter is nil")
  | Some log =>
      match ds with
      | None => (None, Some "proposer API datastore parameter is nil")
      | Some ds =>
          let '(domain, err) :=
            common.ComputerBuilderSigningDomain computeDomain genesisForkVersionHex in
          (Some {| object := {| ctx := ctx; datastore := ds;
                                builderSigningDomain := domain |};
                   Log := WithField "module" "api/proposer" log |}, err)
      end
  end.
End Constructor.

End proposer.

(** ** Test doubles: an in-memory datastore and table-driven libraries *)
Module testing.
Import proposer.

(** The in-memory store: the known validators, the saved registrations,
    and the answers its refresh and its update give. *)
Record MemStore := {
  known : list string;
  saved : list SignedValidatorRegistration;
  refreshAnswer : Z * error;
  updateAnswer : error
}.

Definition memIsKnown (ds : MemStore) (pubkey : string) : bool :=
  existsb (String.eqb pubkey) (known ds).

Definition memRefresh (ds : MemStore) : MemStore * (Z * error) :=
  (ds, refreshAnswer ds).

Definition memUpdate (ds : MemStore) (r : SignedValidatorRegistration)
  : MemStore * error :=
  match updateAnswer ds with
  | Some e => (ds, Some e)
  | None =>
      ({| known := known ds; saved := r :: saved ds;
          refreshAnswer := refreshAnswer ds; updateAnswer := None |}, None)
  end.

Definition memDatastore : ProposerDatastore MemStore :=
  {| IsKnownValidator := memIsKnown;
     RefreshKnownValidators := memRefresh;
     UpdateValidatorRegistration := memUpdate |}.

Definition hexDigit (n : Z) : ascii :=
  match String.get (Z.to_nat n) "0123456789abcdef" with
  | Some c => c
  | None => "0"%char
  end.

Definition hexOf (bs : bytes) : string :=
  "0x" ++ String.concat ""
            (map (fun b => String (hexDigit (b / 16)) (String (hexDigit (b mod 16)) "")) bs).

Fixpoint bytes_eqb (a b : bytes) : bool :=
  match a, b with
  | [], [] => true
  | x :: a', y :: b' => (x =? y) && bytes_eqb a' b'
  | _, _ => false
  end.

(** A toy signature scheme: the signature of a key is the key twice; a
    signature that starts with 255 is reported as malformed. *)
Definition toyVerify (_ : RegisterValidatorRequestMessage) (_ pubkey sig : bytes)
  : bool * error :=
  match sig with
  | 255 :: _ => (false, Some "could not unmarshal signature")
  | _ => (bytes_eqb sig (pubkey ++ pubkey)%list, None)
  end.

Definition lookup {A} (table : list (string * A)) (body : string) : string + A :=
  match find (fun e => String.eqb body (fst e)) table with
  | Some e => inr (snd e)
  | None => inl "invalid character"
  end.

Definition tableLibraries
  (registrations : list (string * list SignedValidatorRegistration))
  (blocks : list (string * SignedBlindedBeaconBlock)) : Libraries :=
  {| NewPubkeyHex := hexOf;
     VerifySignature := toyVerify;
     DecodeRegistrations := lookup registrations;
     DecodeBlock := lookup blocks |}.

Definition registration (pubkey sig : bytes) : SignedValidatorRegistration :=
  {| Message := {| FeeRecipient := repeat 0 20; GasLimit := 30000000;
                   Timestamp := 1; Pubkey := pubkey |};
     Signature := sig |}.

Definition goodEntry := registration (repeat 1 48) (repeat 1 96).
Definition shortKeyEntry := registration (repeat 1 47) (repeat 1 96).
Definition shortSigEntry := registration (repeat 1 48) (repeat 1 95).
Definition unknownEntry := registration (repeat 2 48) (repeat 2 96).
Definition badSigEntry := registration (repeat 1 48) (repeat 3 96).
Definition otherGoodEntry := registration (repeat 4 48) (repeat 4 96).

Definition batch : list SignedValidatorRegistration :=
  [shortKeyEntry; goodEntry; unknownEntry; shortSigEntry; badSigEntry; otherGoodEntry].

Definition store0 : MemStore :=
  {| known := [hexOf (repeat 1 48); hexOf (repeat 4 48)];
     saved := [];
     refreshAnswer := (2, None);
     updateAnswer := None |}.

Definition emptyStore : MemStore :=
  {| known := []; saved := []; refreshAnswer := (0, None); updateAnswer := None |}.

Definition brokenStore : MemStore :=
  {| known := []; saved := []; refreshAnswer := (0, Some "connection refused");
     updateAnswer := None |}.

Definition lib0 : Libraries :=
  tableLibraries
    [("batch", batch)]
    [("block95", {| BlockMessage := []; BlockSignature := repeat 0 95 |});
     ("block96", {| BlockMessage := []; BlockSignature := repeat 0 96 |})].

Definition apiOn (ds : MemStore) : ProposerAPI MemStore :=
  {| ctx := {| cancelled := false |}; datastore := ds; builderSigningDomain := [] |}.

Definition serviceOn (ds : MemStore) : Service MemStore :=
  {| api := apiOn ds; spawned := 0; waiting := 0; trace := [] |}.

(** A URL parser that knows two addresses. *)
Definition parseTable (s : string) : option url.URL * error :=
  if (s =? "http://localhost:8080")%string then
    (Some {| url.Scheme := "http"; url.User := None;
             url.Host := "localhost:8080"; url.Path := "" |}, None)
  else if (s =? "https://0xaa@relay.example")%string then
    (Some {| url.Scheme := "https";
             url.User := Some {| url.username := "0xaa"; url.password := None |};
             url.Host := "relay.example"; url.Path := "" |}, None)
  else (None, Some "parse error").

Definition unhex (s : string) : string + bytes :=
  if (s =? "0xaa")%string then inr [170] else inl "hex string without 0x prefix".

Fixpoint zeros (n : nat) : string :=
  match n with
  | O => ""
  | S k => String "0" (zeros k)
  end.

Definition hash66 : string := "0x" ++ zeros 64.
Definition pubkey98 : string := "0x" ++ zeros 96.
Definition pubkey90 : string := "0x" ++ zeros 88.

Definition someConstants : common.NetworkConstants :=
  {| common.GenesisForkVersionKiln := "0x70000069";
     common.GenesisValidatorsRootKiln := "0x01";
     common.BellatrixForkVersionKiln := "0x70000071";
     common.GenesisForkVersionRopsten := "0x80000069";
     common.GenesisValidatorsRootRopsten := "0x02";
     common.BellatrixForkVersionRopsten := "0x80000071";
     common.GenesisForkVersionSepolia := "0x90000069";
     common.GenesisValidatorsRootSepolia := "0x03";
     common.BellatrixForkVersionSepolia := "0x90000071" |}.

End testing.

(** ** What the specification speaks of

    The vocabulary of the specification, defined from its words, against
    which the code above is compared. *)
Module spec.
Import proposer.

(** What the caller sees of a response: the status and the body. *)
Definition answer (w : http.ResponseWriter) : option Z * list http.Chunk :=
  (http.status w, http.body w).

Definition clientError (message : string) : option Z * list http.Chunk :=
  (Some 400, [http.Encoded (http.ErrorResponse 400 message)]).

Section Checks.
Context {DS : Type}.
Variable store : ProposerDatastore DS.
Variable lib : Libraries.

(** Structural check: public key of 48 bytes, signature of 96 bytes. *)
Definition wellFormed (r : SignedValidatorRegistration) : bool :=
  (List.length (Pubkey (Message r)) =? 48)%nat
  && (List.length (Signature r) =? 96)%nat.

(** Membership check against the store the API holds. *)
Definition knownValidator (api : ProposerAPI DS) (r : SignedValidatorRegistration) : bool :=
  IsKnownValidator store (datastore api) (NewPubkeyHex lib (Pubkey (Message r))).

(** Signature check: no verification error and a positive result. *)
Definition validSignature (api : ProposerAPI DS) (r : SignedValidatorRegistration) : bool :=
  match VerifySignature lib (Message r) (builderSigningDomain api)
          (Pubkey (Message r)) (Signature r) with
  | (ok, None) => ok
  | (_, Some _) => false
  end.

Definition passesEveryCheck (api : ProposerAPI DS) (r : SignedValidatorRegistration) : bool :=
  wellFormed r && knownValidator api r && validSignature api r.

(** The store keeps its answer on membership across registration updates:
    the known-validator set is written by the refresh only. *)
Definition membershipStable : Prop :=
  forall ds r pubkey,
    IsKnownValidator store (fst (UpdateValidatorRegistration store ds r)) pubkey
    = IsKnownValidator store ds pubkey.
End Checks.

(** The registrations whose upsert a trace attempts, in order. *)
Definition upserts (t : list Event) : list SignedValidatorRegistration :=
  flat_map (fun e => match e with
                     | EvUpdateValidatorRegistration r _ => [r]
                     | _ => []
                     end) t.

Definition supportedNetworks : list string :=
  [common.EthNetworkKiln; common.EthNetworkRopsten; common.EthNetworkSepolia;
   common.EthNetworkGoerliShadowFork5].

End spec.

(** ** Reading a trace *)
Module observe.
Import proposer.

(** The keys a trace asks the store about, in order. *)
Definition membershipQueries (t : list Event) : list string :=
  flat_map (fun e => match e with
                     | EvIsKnownValidator pubkey _ => [pubkey]
                     | _ => []
                     end) t.

(** The registrations whose signature a trace checks, in order. *)
Definition verifications (t : list Event) : list SignedValidatorRegistration :=
  flat_map (fun e => match e with
                     | EvVerifySignature r _ _ => [r]
                     | _ => []
                     end) t.

(** The log records of a trace. *)
Definition logged (t : list Event) : list (Level * string) :=
  flat_map (fun e => match e with
                     | EvLog level msg => [(level, msg)]
                     | _ => []
                     end) t.

(** The messages logged at level [Error]. *)
Definition errorMessages (t : list Event) : list string :=
  flat_map (fun e => match e with
                     | EvLog Error msg => [msg]
                     | _ => []
                     end) t.

(** The record the register handler logs when the store refuses an update. *)
Definition updateErrorMsg : string := "error updating validator registration".

(** The registrations whose update the store answered with an error. *)
Definition failedUpdates (t : list Event) : list SignedValidatorRegistration :=
  flat_map (fun e => match e with
                     | EvUpdateValidatorRegistration r (Some _) => [r]
                     | _ => []
                     end) t.

Section Store.
Context {DS : Type}.
Variable store : ProposerDatastore DS.

(** The store after the updates of the given registrations, in order. *)
Definition updatedBy (ds : DS) (rs : list SignedValidatorRegistration) : DS :=
  fold_left (fun d r => fst (UpdateValidatorRegistration store d r)) rs ds.
End Store.

End observe.

(** ** More test doubles *)
Module fixtures.
Import proposer testing.

Definition firstPart : list SignedValidatorRegistration :=
  [shortKeyEntry; goodEntry; unknownEntry].
Definition secondPart : list SignedValidatorRegistration :=
  [shortSigEntry; badSigEntry; otherGoodEntry].

Definition splitLib : Libraries :=
  tableLibraries
    [("whole", (firstPart ++ secondPart)%list); ("first", firstPart);
     ("rest", secondPart)]
    [].

(** A store whose updates fail. *)
Definition fullStore : MemStore :=
  {| known := known store0; saved := []; refreshAnswer := (2, None);
     updateAnswer := Some "disk full" |}.

Definition logger : LogEntry := {| fields := [("service", "relay")] |}.

(** A domain computation that knows one fork version. *)
Definition domainOf (hex : string) : bytes * error :=
  if (hex =? "0x13001034")%string then ([7; 0; 0; 1], None)
  else ([], Some "invalid fork version").

End fixtures.

(** * Properties *)

(** ** strconv.ParseUint at base 10, 64 bits *)
Section ParseUintFacts.
Import strconv.

Lemma byte_of_range (c : ascii) : 0 <= byte_of c < 256.
Proof.
  unfold byte_of.
  pose proof (N_ascii_bounded c) as Hb.
  lia.
Qed.

Lemma digit_of_decimal (c : ascii) :
  is_decimal_digit c = true ->
  digit c = Some (byte_of c - 48) /\ 0 <= byte_of c - 48 <= 9.
Proof.
  unfold is_decimal_digit, digit; intros H.
  cbv zeta. rewrite H.
  apply andb_true_iff in H as [H1 H2].
  apply Z.leb_le in H1, H2. split; [reflexivity | lia].
Qed.

Lemma digit_of_other (c : ascii) :
  is_decimal_digit c = false ->
  digit c = None \/ exists d, digit c = Some d /\ 10 <= d.
Proof.
  unfold is_decimal_digit, digit; intros H.
  cbv zeta. rewrite H.
  destruct ((97 <=? lower (byte_of c)) && (lower (byte_of c) <=? 122)) eqn:E.
  - right. eexists; split; [reflexivity|].
    apply andb_true_iff in E as [E1 _]. apply Z.leb_le in E1. lia.
  - now left.
Qed.

Lemma decimal_grows (s : string) :
  all_digits s = true -> forall n, 0 <= n -> n <= decimal n s.
Proof.
  induction s as [|c s IH]; simpl; intros Hd n Hn; [lia|].
  apply andb_true_iff in Hd as [Hc Hs].
  destruct (digit_of_decimal c Hc) as [_ Hr].
  specialize (IH Hs (n * 10 + (byte_of c - 48))). lia.
Qed.

Lemma wrap64_small (z : Z) : 0 <= z <= maxUint64 -> wrap64 z = z.
Proof.
  unfold wrap64, maxUint64; intros H. apply Z.mod_small. lia.
Qed.

(** On a string of decimal digits the loop returns the numeral when it
    fits 64 bits, and a range error when it does not. *)
Lemma parse_loop_digits (s : string) :
  all_digits s = true ->
  forall n, 0 <= n <= maxUint64 ->
  parse_loop n s =
    if decimal n s <=? maxUint64 then (decimal n s, None)
    else (maxVal, Some ErrRange).
Proof.
  induction s as [|c s IH]; intros Hd n Hn.
  - simpl. destruct (n <=? maxUint64) eqn:E; [reflexivity|].
    apply Z.leb_gt in E. lia.
  - simpl in Hd. apply andb_true_iff in Hd as [Hc Hs].
    destruct (digit_of_decimal c Hc) as [Hdig Hr].
    cbn [parse_loop decimal]. rewrite Hdig.
    set (d := byte_of c - 48) in *.
    assert (Hb : (base <=? d) = false) by (apply Z.leb_gt; unfold base; lia).
    rewrite Hb.
    pose proof (decimal_grows s Hs (n * 10 + d) ltac:(lia)) as Hg.
    destruct (cutoff <=? n) eqn:Hcut.
    + apply Z.leb_le in Hcut.
      assert (E : (decimal (n * 10 + d) s <=? maxUint64) = false).
      { apply Z.leb_gt. unfold cutoff, maxUint64 in *.
        change (18446744073709551615 / 10 + 1) with 1844674407370955162 in Hcut. lia. }
      now rewrite E.
    + apply Z.leb_gt in Hcut.
      unfold cutoff, maxUint64 in Hcut.
      change (18446744073709551615 / 10 + 1) with 1844674407370955162 in Hcut.
      cbv zeta. unfold base.
      rewrite (wrap64_small (n * 10)) by (unfold maxUint64; lia).
      destruct (Z_le_gt_dec (n * 10 + d) maxUint64) as [Hfit | Hover].
      * rewrite (wrap64_small (n * 10 + d)) by lia.
        assert (E1 : (n * 10 + d <? n * 10) = false) by (apply Z.ltb_ge; lia).
        assert (E2 : (maxVal <? n * 10 + d) = false)
          by (apply Z.ltb_ge; unfold maxVal; lia).
        rewrite E1, E2. cbn [orb].
        apply IH; [assumption | lia].
      * assert (Hw : wrap64 (n * 10 + d) = n * 10 + d - 18446744073709551616).
        { unfold wrap64. symmetry.
          apply (Z.mod_unique _ _ 1); unfold maxUint64 in *; lia. }
        rewrite Hw.
        assert (E1 : (n * 10 + d - 18446744073709551616 <? n * 10) = true)
          by (apply Z.ltb_lt; lia).
        rewrite E1. cbn [orb].
        assert (E : (decimal (n * 10 + d) s <=? maxUint64) = false)
          by (apply Z.leb_gt; lia).
        now rewrite E.
Qed.

(** A byte that is no decimal digit makes the loop fail. *)
Lemma parse_loop_other (s : string) :
  all_digits s = false -> forall n, snd (parse_loop n s) <> None.
Proof.
  induction s as [|c s IH]; intros Hd n; [discriminate|].
  simpl in Hd. cbn [parse_loop].
  destruct (is_decimal_digit c) eqn:Hc.
  - destruct (digit_of_decimal c Hc) as [Hdig Hr]. rewrite Hdig.
    assert (Hb : (base <=? byte_of c - 48) = false)
      by (apply Z.leb_gt; unfold base; lia).
    rewrite Hb.
    destruct (cutoff <=? n); [discriminate|].
    cbv zeta.
    match goal with |- context [if ?b then _ else _] => destruct b end;
      [discriminate | apply IH; assumption].
  - destruct (digit_of_other c Hc) as [Hn | [d [Hd' Hge]]].
    + rewrite Hn. discriminate.
    + rewrite Hd'.
      assert (Hb : (base <=? d) = true) by (apply Z.leb_le; unfold base; lia).
      rewrite Hb. discriminate.
Qed.

(** [ParseUint] accepts exactly the non-empty strings of decimal digits
    whose value fits 64 bits. *)
Lemma ParseUint_accepts (s : string) :
  snd (ParseUint s) = None <->
  s <> "" /\ all_digits s = true /\ decimal_value s <= maxUint64.
Proof.
  destruct s as [|c s].
  - simpl. split; [discriminate | intros [H _]; now elim H].
  - change (ParseUint (String c s)) with (parse_loop 0 (String c s)).
    destruct (all_digits (String c s)) eqn:Hd.
    + rewrite (parse_loop_digits _ Hd 0) by (unfold maxUint64; lia).
      unfold decimal_value.
      destruct (decimal 0 (String c s) <=? maxUint64) eqn:E.
      * apply Z.leb_le in E. cbn [snd]. split; [intros _ | reflexivity].
        repeat split; [discriminate | assumption].
      * apply Z.leb_gt in E. cbn [snd].
        split; [discriminate | intros (_ & _ & H); lia].
    + split.
      * intros H. now apply (parse_loop_other _ Hd 0) in H.
      * intros (_ & H & _). discriminate.
Qed.

Lemma ParseUint_value (s : string) :
  s <> "" -> all_digits s = true -> decimal_value s <= maxUint64 ->
  ParseUint s = (decimal_value s, None).
Proof.
  intros Hne Hd Hv. destruct s as [|c s]; [now elim Hne|].
  change (ParseUint (String c s)) with (parse_loop 0 (String c s)).
  rewrite (parse_loop_digits _ Hd 0) by (unfold maxUint64; lia).
  unfold decimal_value in Hv. apply Z.leb_le in Hv. now rewrite Hv.
Qed.

End ParseUintFacts.

(** ** The get-header and get-payload handlers *)
Section HandlerFacts.
Import strconv proposer spec.

Lemma RespondError_400 (k : http.WriterKind) (message : string) :
  answer (RespondError (http.NewWriter k) http.StatusBadRequest message)
  = clientError message.
Proof. destruct k; reflexivity. Qed.

Lemma handleGetHeader_bad_slot (w : http.ResponseWriter) (slot hash pubkey : string) :
  snd (ParseUint slot) <> None ->
  handleGetHeader w slot hash pubkey
  = ([EvLog Info "getHeader"],
     RespondError w http.StatusBadRequest common.ErrInvalidSlot).
Proof.
  intros H. unfold handleGetHeader.
  destruct (snd (ParseUint slot)); [reflexivity | now elim H].
Qed.

Lemma handleGetHeader_good_slot (w : http.ResponseWriter) (slot hash pubkey : string) :
  snd (ParseUint slot) = None ->
  handleGetHeader w slot hash pubkey = handleGetHeader w "0" hash pubkey.
Proof.
  intros H. unfold handleGetHeader. rewrite H. reflexivity.
Qed.

(** C3: get-header checks the slot, then the length of the pubkey, then
    the length of the parent hash; the first check that fails decides the
    400 error, whatever the later parameters are; a slot that is no number
    (such as abc) gives the invalid-slot error; when all three pass the
    status is 204 and the body holds nothing but the empty JSON response
    (nothing at all on a server connection, which takes no body at 204). *)
Theorem getHeader_validation_order
  (k : http.WriterKind) (slot parentHashHex pubkey : string) :
  let w := snd (handleGetHeader (http.NewWriter k) slot parentHashHex pubkey) in
  (snd (ParseUint slot) <> None -> answer w = clientError common.ErrInvalidSlot)
  /\ (snd (ParseUint slot) = None -> String.length pubkey <> 98%nat ->
      answer w = clientError common.ErrInvalidPubkey)
  /\ (snd (ParseUint slot) = None -> String.length pubkey = 98%nat ->
      String.length parentHashHex <> 66%nat ->
      answer w = clientError common.ErrInvalidHash)
  /\ (snd (ParseUint slot) = None -> String.length pubkey = 98%nat ->
      String.length parentHashHex = 66%nat ->
      http.status w = Some 204
      /\ http.body w = match k with
                       | http.ServerConn => []
                       | http.Recorder => [http.Encoded http.NilResponse]
                       end)
  /\ answer (snd (handleGetHeader (http.NewWriter k) "abc" parentHashHex pubkey))
     = clientError common.ErrInvalidSlot.
Proof.
  cbv zeta. split; [|split; [|split; [|split]]].
  - intros H. rewrite handleGetHeader_bad_slot by assumption.
    apply RespondError_400.
  - intros Hs Hp. unfold handleGetHeader. rewrite Hs.
    apply Nat.eqb_neq in Hp. rewrite Hp. apply RespondError_400.
  - intros Hs Hp Hh. unfold handleGetHeader. rewrite Hs.
    apply Nat.eqb_eq in Hp. rewrite Hp.
    apply Nat.eqb_neq in Hh. rewrite Hh. apply RespondError_400.
  - intros Hs Hp Hh. unfold handleGetHeader. rewrite Hs.
    apply Nat.eqb_eq in Hp, Hh. rewrite Hp, Hh. destruct k; split; reflexivity.
  - destruct k; reflexivity.
Qed.

(** C3, at the inputs of the specification: a slot that is no number, a
    pubkey of 90 characters behind a valid slot, and a valid request. *)
Lemma getHeader_validation_order_witness :
  answer (snd (handleGetHeader (http.NewWriter http.Recorder) "abc"
                 testing.hash66 testing.pubkey90))
  = clientError common.ErrInvalidSlot
  /\ answer (snd (handleGetHeader (http.NewWriter http.Recorder) "123"
                    "0x" testing.pubkey90))
     = clientError common.ErrInvalidPubkey
  /\ http.status (snd (handleGetHeader (http.NewWriter http.ServerConn) "123"
                         testing.hash66 testing.pubkey98)) = Some 204.
Proof.
  split; [|split].
  - apply (getHeader_validation_order http.Recorder "abc"
             testing.hash66 testing.pubkey90).
  - apply (getHeader_validation_order http.Recorder "123" "0x" testing.pubkey90);
      [reflexivity | vm_compute; discriminate].
  - apply (getHeader_validation_order http.ServerConn "123"
             testing.hash66 testing.pubkey98); reflexivity.
Defined.

(** C8, as the code has it: a slot of decimal digits, of any length, whose
    value fits 64 bits passes the slot check: the answer is never the
    invalid-slot error, and the request is judged on its pubkey and parent
    hash alone (invalid pubkey, else invalid hash, else 204 with nothing
    but the empty response). *)
Theorem getHeader_slot_within_uint64 (slot : string) :
  slotPattern slot = true ->
  decimal_value slot <= maxUint64 ->
  ParseUint slot = (decimal_value slot, None)
  /\ (forall w parentHashHex pubkey,
        handleGetHeader w slot parentHashHex pubkey
        = handleGetHeader w "0" parentHashHex pubkey)
  /\ (forall k parentHashHex pubkey,
        let w := snd (handleGetHeader (http.NewWriter k) slot parentHashHex pubkey) in
        answer w <> clientError common.ErrInvalidSlot
        /\ (String.length pubkey <> 98%nat ->
            answer w = clientError common.ErrInvalidPubkey)
        /\ (String.length pubkey = 98%nat ->
            String.length parentHashHex <> 66%nat ->
            answer w = clientError common.ErrInvalidHash)
        /\ (String.length pubkey = 98%nat ->
            String.length parentHashHex = 66%nat ->
            http.status w = Some 204
            /\ http.body w = match k with
                             | http.ServerConn => []
                             | http.Recorder => [http.Encoded http.NilResponse]
                             end)).
Proof.
  unfold slotPattern. intros Hp Hv.
  apply andb_true_iff in Hp as [Hne Hd].
  assert (Hne' : slot <> "").
  { intros ->. discriminate. }
  pose proof (ParseUint_value slot Hne' Hd Hv) as Hok.
  assert (Hs : snd (ParseUint slot) = None) by now rewrite Hok.
  split; [assumption|]. split.
  - intros w h p. now apply handleGetHeader_good_slot.
  - intros k h p. cbv zeta. unfold handleGetHeader. rewrite Hs.
    destruct (String.length p =? 98)%nat eqn:Ep.
    + apply Nat.eqb_eq in Ep.
      destruct (String.length h =? 66)%nat eqn:Eh.
      * apply Nat.eqb_eq in Eh. cbn [negb].
        split; [destruct k; discriminate|].
        split; [intros H; now elim H|].
        split; [intros _ H; now elim H|].
        intros _ _. destruct k; split; reflexivity.
      * apply Nat.eqb_neq in Eh. cbn [negb snd].
        rewrite RespondError_400.
        split; [discriminate|].
        split; [intros H; now elim H|].
        split; [reflexivity|].
        intros _ H. now elim Eh.
    + apply Nat.eqb_neq in Ep. cbn [negb snd].
      rewrite RespondError_400.
      split; [discriminate|].
      split; [reflexivity|].
      split; intros H; now elim Ep.
Qed.

(** C8, at a slot of 41 digits whose value is 2^64-1. *)
Lemma getHeader_slot_within_uint64_witness :
  ParseUint "00000000000000000000018446744073709551615"
  = (decimal_value "00000000000000000000018446744073709551615", None)
  /\ (forall w parentHashHex pubkey,
        handleGetHeader w "00000000000000000000018446744073709551615"
          parentHashHex pubkey
        = handleGetHeader w "0" parentHashHex pubkey)
  /\ (forall k parentHashHex pubkey,
        let w := snd (handleGetHeader (http.NewWriter k)
                        "00000000000000000000018446744073709551615"
                        parentHashHex pubkey) in
        answer w <> clientError common.ErrInvalidSlot
        /\ (String.length pubkey <> 98%nat ->
            answer w = clientError common.ErrInvalidPubkey)
        /\ (String.length pubkey = 98%nat ->
            String.length parentHashHex <> 66%nat ->
            answer w = clientError common.ErrInvalidHash)
        /\ (String.length pubkey = 98%nat ->
            String.length parentHashHex = 66%nat ->
            http.status w = Some 204
            /\ http.body w = match k with
                             | http.ServerConn => []
                             | http.Recorder => [http.Encoded http.NilResponse]
                             end)).
Proof.
  apply (getHeader_slot_within_uint64
           "00000000000000000000018446744073709551615").
  - reflexivity.
  - vm_compute. discriminate.
Defined.

(** The slot of the witness, evaluated: it parses to 2^64-1 and a valid
    request with it is answered 204. *)
Lemma getHeader_slot_max_uint64 :
  ParseUint "00000000000000000000018446744073709551615"
  = (18446744073709551615, None)
  /\ answer (snd (handleGetHeader (http.NewWriter http.Recorder)
                    "00000000000000000000018446744073709551615"
                    testing.hash66 testing.pubkey98))
     = (Some 204, [http.Encoded http.NilResponse]).
Proof. split; reflexivity. Qed.

(** C8 fails as stated: 2^64 is a string of decimal digits, it matches the
    slot pattern of the route, and the handler answers invalid slot. *)
Lemma getHeader_slot_overflow :
  slotPattern "18446744073709551616" = true
  /\ ParseUint "18446744073709551616" = (18446744073709551615, Some ErrRange)
  /\ answer (snd (handleGetHeader (http.NewWriter http.Recorder)
                    "18446744073709551616" testing.hash66 testing.pubkey98))
     = clientError common.ErrInvalidSlot.
Proof. repeat split. Qed.

(** Every slot of decimal digits beyond 64 bits is refused. *)
Lemma getHeader_slot_beyond_uint64 (k : http.WriterKind) (slot hash pubkey : string) :
  slotPattern slot = true ->
  maxUint64 < decimal_value slot ->
  answer (snd (handleGetHeader (http.NewWriter k) slot hash pubkey))
  = clientError common.ErrInvalidSlot.
Proof.
  intros Hp Hv.
  rewrite handleGetHeader_bad_slot; [apply RespondError_400|].
  intros H. apply ParseUint_accepts in H as (_ & _ & H). lia.
Qed.

(** C6: get-payload answers 400 with the decoder's message when the body
    does not decode, 400 with the invalid-signature text when the
    signature is not 96 bytes long, and 200 with no body otherwise. *)
Theorem getPayload_responses (lib : Libraries) (k : http.WriterKind) (body : string) :
  let w := snd (handleGetPayload lib (http.NewWriter k) body) in
  (forall err, DecodeBlock lib body = inl err -> answer w = clientError err)
  /\ (forall block, DecodeBlock lib body = inr block ->
      List.length (BlockSignature block) <> 96%nat ->
      answer w = clientError common.ErrInvalidSignature)
  /\ (forall block, DecodeBlock lib body = inr block ->
      List.length (BlockSignature block) = 96%nat ->
      answer w = (Some 200, [])).
Proof.
  cbv zeta. unfold handleGetPayload. repeat split.
  - intros err H. rewrite H. apply RespondError_400.
  - intros block H Hlen. rewrite H.
    apply Nat.eqb_neq in Hlen. rewrite Hlen. apply RespondError_400.
  - intros block H Hlen. rewrite H.
    apply Nat.eqb_eq in Hlen. rewrite Hlen. destruct k; reflexivity.
Qed.

(** C6, at a body that does not decode, a signature of 95 bytes, and a
    signature of 96 bytes. *)
Lemma getPayload_responses_witness :
  answer (snd (handleGetPayload testing.lib0 (http.NewWriter http.ServerConn) "{"))
  = clientError "invalid character"
  /\ answer (snd (handleGetPayload testing.lib0 (http.NewWriter http.ServerConn)
                    "block95"))
     = clientError common.ErrInvalidSignature
  /\ answer (snd (handleGetPayload testing.lib0 (http.NewWriter http.ServerConn)
                    "block96"))
     = (Some 200, []).
Proof.
  split; [|split].
  - apply (getPayload_responses testing.lib0 http.ServerConn "{"). reflexivity.
  - eapply (getPayload_responses testing.lib0 http.ServerConn "block95").
    + reflexivity.
    + vm_compute. discriminate.
  - eapply (getPayload_responses testing.lib0 http.ServerConn "block96");
      reflexivity.
Defined.

End HandlerFacts.

(** ** The registration pipeline *)
Section RegistrationFacts.
Import proposer spec.
Context {DS : Type}.
Variable store : ProposerDatastore DS.
Variable lib : Libraries.

Local Abbreviation process := (processRegistration store lib).
Local Abbreviation hexOf r := (NewPubkeyHex lib (Pubkey (Message r))).
Local Abbreviation verdict api r :=
  (VerifySignature lib (Message r) (builderSigningDomain api)
     (Pubkey (Message r)) (Signature r)).
Local Abbreviation update api r := (UpdateValidatorRegistration store (datastore api) r).

Lemma process_short_key (api : ProposerAPI DS) (r : SignedValidatorRegistration) :
  List.length (Pubkey (Message r)) <> 48%nat -> process api r = (api, []).
Proof.
  intros H. unfold processRegistration. cbv zeta.
  apply Nat.eqb_neq in H. now rewrite H.
Qed.

Lemma process_short_signature (api : ProposerAPI DS) (r : SignedValidatorRegistration) :
  List.length (Signature r) <> 96%nat -> process api r = (api, []).
Proof.
  intros H. unfold processRegistration. cbv zeta.
  apply Nat.eqb_neq in H. rewrite H.
  destruct (List.length (Pubkey (Message r)) =? 48)%nat; reflexivity.
Qed.

Lemma process_malformed (api : ProposerAPI DS) (r : SignedValidatorRegistration) :
  wellFormed r = false -> process api r = (api, []).
Proof.
  unfold wellFormed. intros H. apply andb_false_iff in H as [H | H];
    apply Nat.eqb_neq in H;
    [now apply process_short_key | now apply process_short_signature].
Qed.

Lemma process_unknown (api : ProposerAPI DS) (r : SignedValidatorRegistration) :
  wellFormed r = true -> knownValidator store lib api r = false ->
  process api r
  = (api, [EvIsKnownValidator (hexOf r) false; EvLog Warn "not a known validator"]).
Proof.
  unfold wellFormed, knownValidator. intros Hw Hk.
  apply andb_true_iff in Hw as [H1 H2].
  unfold processRegistration. cbv zeta. now rewrite H1, H2, Hk.
Qed.

Lemma process_unverified (api : ProposerAPI DS) (r : SignedValidatorRegistration) :
  wellFormed r = true -> knownValidator store lib api r = true ->
  validSignature lib api r = false ->
  process api r
  = (api, [EvIsKnownValidator (hexOf r) true;
           EvVerifySignature r (fst (verdict api r)) (snd (verdict api r));
           EvLog Warn "failed to verify registerValidator signature"]).
Proof.
  unfold wellFormed, knownValidator, validSignature. intros Hw Hk Hv.
  apply andb_true_iff in Hw as [H1 H2].
  unfold processRegistration. cbv zeta. rewrite H1, H2, Hk. cbn [negb].
  destruct (verdict api r) as [ok [e|]]; cbn [isSome orb fst snd].
  - reflexivity.
  - rewrite Hv. reflexivity.
Qed.

Lemma process_accepted (api : ProposerAPI DS) (r : SignedValidatorRegistration) :
  wellFormed r = true -> knownValidator store lib api r = true ->
  validSignature lib api r = true ->
  process api r
  = (withStore api (fst (update api r)),
     [EvIsKnownValidator (hexOf r) true;
      EvVerifySignature r true None;
      EvUpdateValidatorRegistration r (snd (update api r))]
     ++ match snd (update api r) with
        | Some _ => [EvLog Error "error updating validator registration"]
        | None => []
        end)%list.
Proof.
  unfold wellFormed, knownValidator, validSignature. intros Hw Hk Hv.
  apply andb_true_iff in Hw as [H1 H2].
  unfold processRegistration. cbv zeta. rewrite H1, H2, Hk. cbn [negb].
  destruct (verdict api r) as [ok [e|]]; [discriminate|].
  subst ok. cbn [isSome orb negb].
  destruct (update api r) as [ds err]. reflexivity.
Qed.

(** C2: an entry is checked for the length of its key and of its
    signature, then for membership, then for its signature, and only then
    upserted; the first check that fails ends the entry. An entry with a
    key that is not 48 bytes or a signature that is not 96 bytes leaves no
    trace at all and the store as it was. *)
Theorem registration_checks_in_order
  (api : ProposerAPI DS) (r : SignedValidatorRegistration) :
  let out := process api r in
  (List.length (Pubkey (Message r)) <> 48%nat -> out = (api, []))
  /\ (List.length (Signature r) <> 96%nat -> out = (api, []))
  /\ (wellFormed r = true -> knownValidator store lib api r = false ->
      fst out = api
      /\ calls (snd out) = [EvIsKnownValidator (hexOf r) false])
  /\ (wellFormed r = true -> knownValidator store lib api r = true ->
      validSignature lib api r = false ->
      fst out = api
      /\ calls (snd out)
         = [EvIsKnownValidator (hexOf r) true;
            EvVerifySignature r (fst (verdict api r)) (snd (verdict api r))])
  /\ (wellFormed r = true -> knownValidator store lib api r = true ->
      validSignature lib api r = true ->
      fst out = withStore api (fst (update api r))
      /\ calls (snd out)
         = [EvIsKnownValidator (hexOf r) true;
            EvVerifySignature r true None;
            EvUpdateValidatorRegistration r (snd (update api r))]).
Proof.
  cbv zeta. split; [|split; [|split; [|split]]].
  - apply process_short_key.
  - apply process_short_signature.
  - intros Hw Hk. rewrite process_unknown by assumption. split; reflexivity.
  - intros Hw Hk Hv. rewrite process_unverified by assumption. split; reflexivity.
  - intros Hw Hk Hv. rewrite process_accepted by assumption.
    split; [reflexivity|].
    destruct (snd (update api r)); reflexivity.
Qed.

Lemma upserts_app (a b : list Event) :
  upserts (a ++ b) = (upserts a ++ upserts b)%list.
Proof. unfold upserts. apply flat_map_app. Qed.

(** A body that does not decode is answered with 400 and the decoder's
    message; no entry is looked at. *)
Lemma register_decode_error
  (api : ProposerAPI DS) (k : http.WriterKind) (body err : string) :
  DecodeRegistrations lib body = inl err ->
  handleRegisterValidator store lib api (http.NewWriter k) body
  = (api, [EvLog Info "registerValidator"],
     RespondError (http.NewWriter k) http.StatusBadRequest err).
Proof.
  intros H. unfold handleRegisterValidator. now rewrite H.
Qed.

(** What an entry adds to the upserts: itself when it passes every check. *)
Lemma process_upserts (api : ProposerAPI DS) (r : SignedValidatorRegistration) :
  upserts (snd (process api r))
  = if passesEveryCheck store lib api r then [r] else [].
Proof.
  unfold passesEveryCheck.
  destruct (wellFormed r) eqn:Hw;
    [|now rewrite process_malformed by assumption].
  destruct (knownValidator store lib api r) eqn:Hk;
    [|now rewrite process_unknown by assumption].
  destruct (validSignature lib api r) eqn:Hv;
    [|now rewrite process_unverified by assumption].
  rewrite process_accepted by assumption. cbn [snd andb].
  rewrite upserts_app. cbn.
  destruct (snd (update api r)); reflexivity.
Qed.

(** An entry changes the API object only in its store, and there only by
    the update of the store. *)
Lemma process_api (api : ProposerAPI DS) (r : SignedValidatorRegistration) :
  fst (process api r) = api
  \/ fst (process api r) = withStore api (fst (update api r)).
Proof.
  destruct (wellFormed r) eqn:Hw;
    [|left; now rewrite process_malformed by assumption].
  destruct (knownValidator store lib api r) eqn:Hk;
    [|left; now rewrite process_unknown by assumption].
  destruct (validSignature lib api r) eqn:Hv;
    [|left; now rewrite process_unverified by assumption].
  right. now rewrite process_accepted by assumption.
Qed.

Lemma process_keeps_checks (api : ProposerAPI DS) (r r' : SignedValidatorRegistration) :
  membershipStable store ->
  passesEveryCheck store lib (fst (process api r)) r'
  = passesEveryCheck store lib api r'.
Proof.
  intros Hst. destruct (process_api api r) as [E | E]; rewrite E; [reflexivity|].
  unfold passesEveryCheck, knownValidator, validSignature, withStore.
  cbn [datastore builderSigningDomain]. now rewrite Hst.
Qed.

Lemma registerAll_app (api : ProposerAPI DS) (a b : list SignedValidatorRegistration) :
  registerAll store lib api (a ++ b)
  = (fst (registerAll store lib (fst (registerAll store lib api a)) b),
     (snd (registerAll store lib api a)
      ++ snd (registerAll store lib (fst (registerAll store lib api a)) b))%list).
Proof.
  revert api. induction a as [|r a IH]; intros api.
  - cbn. now destruct (registerAll store lib api b).
  - cbn [app registerAll].
    destruct (process api r) as [api1 evs1].
    rewrite (IH api1).
    destruct (registerAll store lib api1 a) as [api2 evs2]. cbn [fst snd].
    destruct (registerAll store lib api2 b) as [api3 evs3]. cbn [fst snd].
    now rewrite app_assoc.
Qed.

Lemma registerAll_upserts (payload : list SignedValidatorRegistration) :
  membershipStable store ->
  forall api,
    upserts (snd (registerAll store lib api payload))
    = filter (passesEveryCheck store lib api) payload.
Proof.
  intros Hst. induction payload as [|r rest IH]; intros api; [reflexivity|].
  cbn [registerAll filter].
  pose proof (process_upserts api r) as Hu.
  pose proof (fun r' => process_keeps_checks api r r' Hst) as Hk.
  destruct (process api r) as [api1 evs1]. cbn [fst snd] in *.
  specialize (IH api1).
  destruct (registerAll store lib api1 rest) as [api2 evs2]. cbn [fst snd] in *.
  rewrite upserts_app, Hu, IH.
  rewrite (filter_ext _ _ Hk).
  destruct (passesEveryCheck store lib api r); reflexivity.
Qed.

(** C1: a register request whose body decodes is answered with 200 and the
    empty JSON response whatever the entries are; the upserts attempted are
    exactly the entries that pass every check, in their order, so an entry
    that fails stops none of the later ones, and their number is the number
    of passing entries. Membership is the store's answer, which updates of
    registrations do not change. *)
Theorem register_batch_always_succeeds
  (api : ProposerAPI DS) (k : http.WriterKind) (body : string)
  (payload : list SignedValidatorRegistration) :
  DecodeRegistrations lib body = inr payload ->
  membershipStable store ->
  let out := handleRegisterValidator store lib api (http.NewWriter k) body in
  answer (snd out) = (Some 200, [http.Encoded http.NilResponse])
  /\ upserts (snd (fst out)) = filter (passesEveryCheck store lib api) payload
  /\ List.length (upserts (snd (fst out)))
     = List.length (filter (passesEveryCheck store lib api) payload)
  /\ (forall before r after,
        payload = (before ++ r :: after)%list ->
        passesEveryCheck store lib api r = true ->
        In r (upserts (snd (fst out)))).
Proof.
  intros Hdec Hst. cbv zeta.
  assert (Hu : upserts (snd (fst (handleRegisterValidator store lib api
                                    (http.NewWriter k) body)))
               = filter (passesEveryCheck store lib api) payload).
  { unfold handleRegisterValidator. rewrite Hdec. cbv zeta.
    pose proof (registerAll_upserts payload Hst api) as H.
    destruct (registerAll store lib api payload) as [api' evs].
    cbn [fst snd] in *. rewrite upserts_app. exact H. }
  split; [|split; [|split]].
  - unfold handleRegisterValidator. rewrite Hdec. cbv zeta.
    destruct (registerAll store lib api payload). destruct k; reflexivity.
  - exact Hu.
  - now rewrite Hu.
  - intros before r after Hp Hr. rewrite Hu, Hp.
    apply filter_In. split; [|assumption].
    apply in_or_app. right. now left.
Qed.

End RegistrationFacts.

Lemma memDatastore_membershipStable : spec.membershipStable testing.memDatastore.
Proof.
  intros ds r pubkey. cbn. unfold testing.memUpdate.
  destruct (testing.updateAnswer ds); reflexivity.
Qed.

(** C1, on a batch of six entries of which two pass every check: short
    key, good, unknown key, short signature, bad signature, good. *)
Lemma register_batch_always_succeeds_witness :
  let out := proposer.handleRegisterValidator testing.memDatastore testing.lib0
               (testing.apiOn testing.store0) (http.NewWriter http.ServerConn)
               "batch" in
  spec.answer (snd out) = (Some 200, [http.Encoded http.NilResponse])
  /\ spec.upserts (snd (fst out))
     = filter (spec.passesEveryCheck testing.memDatastore testing.lib0
                 (testing.apiOn testing.store0)) testing.batch
  /\ List.length (spec.upserts (snd (fst out)))
     = List.length
         (filter (spec.passesEveryCheck testing.memDatastore testing.lib0
                    (testing.apiOn testing.store0)) testing.batch)
  /\ (forall before r after,
        testing.batch = (before ++ r :: after)%list ->
        spec.passesEveryCheck testing.memDatastore testing.lib0
          (testing.apiOn testing.store0) r = true ->
        In r (spec.upserts (snd (fst out)))).
Proof.
  apply (register_batch_always_succeeds testing.memDatastore testing.lib0
           (testing.apiOn testing.store0) http.ServerConn "batch" testing.batch).
  - reflexivity.
  - exact memDatastore_membershipStable.
Defined.

(** The batch of the witness has two passing entries and four failing
    ones; two upserts are attempted, the good entries in their order. *)
Lemma register_batch_two_of_six :
  List.length testing.batch = 6%nat
  /\ spec.upserts
       (snd (fst (proposer.handleRegisterValidator testing.memDatastore testing.lib0
                    (testing.apiOn testing.store0) (http.NewWriter http.ServerConn)
                    "batch")))
     = [testing.goodEntry; testing.otherGoodEntry].
Proof. split; reflexivity. Qed.

(** C2, on an entry with a key of 47 bytes, an unknown key, a bad
    signature and a good entry. *)
Lemma registration_checks_in_order_witness :
  proposer.processRegistration testing.memDatastore testing.lib0
    (testing.apiOn testing.store0) testing.shortKeyEntry
  = (testing.apiOn testing.store0, [])
  /\ proposer.processRegistration testing.memDatastore testing.lib0
       (testing.apiOn testing.store0) testing.shortSigEntry
     = (testing.apiOn testing.store0, [])
  /\ proposer.calls
       (snd (proposer.processRegistration testing.memDatastore testing.lib0
               (testing.apiOn testing.store0) testing.unknownEntry))
     = [proposer.EvIsKnownValidator (testing.hexOf (repeat 2 48)) false].
Proof.
  split; [|split].
  - apply (proj1 (registration_checks_in_order testing.memDatastore testing.lib0
                    (testing.apiOn testing.store0) testing.shortKeyEntry)).
    vm_compute. discriminate.
  - apply (proj1 (proj2 (registration_checks_in_order testing.memDatastore
                           testing.lib0 (testing.apiOn testing.store0)
                           testing.shortSigEntry))).
    vm_compute. discriminate.
  - apply (proj1 (proj2 (proj2 (registration_checks_in_order testing.memDatastore
                                  testing.lib0 (testing.apiOn testing.store0)
                                  testing.unknownEntry)))); reflexivity.
Defined.

(** ** The service: start, refresh, stop *)
Section ServiceFacts.
Import proposer spec.
Context {DS : Type}.
Variable store : ProposerDatastore DS.

Local Abbreviation Start := (proposer.Start store).
Local Abbreviation run := (proposer.run store).
Local Abbreviation step := (proposer.step store).
Local Abbreviation firstRefresh s := (RefreshKnownValidators store (datastore (api s))).
Local Abbreviation select tick := (fun s' : Service DS => refreshTask store s' tick).


Lemma refresher_not_started (s : Service DS) :
  refresher s = NotStarted <-> waiting s = 0%nat /\ spawned s = 0%nat.
Proof.
  unfold refresher. destruct (waiting s), (spawned s); split;
    try (intros [? ?]); try discriminate; auto.
Qed.

Lemma refresher_exited (s : Service DS) :
  waiting s = 0%nat -> spawned s <> 0%nat -> refresher s = Exited.
Proof.
  unfold refresher. intros -> H. destruct (spawned s); [now elim H | reflexivity].
Qed.

Lemma refreshes_emit_log (s : Service DS) (l : Level) (m : string) :
  refreshes (emit s [EvLog l m]) = refreshes s.
Proof.
  unfold refreshes, emit. cbn [trace]. rewrite filter_app, length_app.
  cbn. lia.
Qed.

Lemma refreshes_emit_known (s : Service DS) (cnt : Z) :
  refreshes (emit s [logKnownValidators cnt]) = refreshes s.
Proof.
  unfold logKnownValidators. destruct (cnt =? 0); apply refreshes_emit_log.
Qed.

Lemma refreshes_refresh (s : Service DS) :
  refreshes (fst (refresh store s)) = S (refreshes s).
Proof.
  unfold refresh. destruct (firstRefresh s) as [ds [cnt err]].
  unfold refreshes. cbn [fst trace]. rewrite filter_app, length_app. cbn. lia.
Qed.

Lemma refresh_keeps_context (s : Service DS) :
  ctx (api (fst (refresh store s))) = ctx (api s)
  /\ waiting (fst (refresh store s)) = waiting s
  /\ spawned (fst (refresh store s)) = spawned s.
Proof.
  unfold refresh. destruct (firstRefresh s) as [ds [cnt err]].
  repeat split.
Qed.

(** *** One goroutine at its select *)

Lemma select_none (s : Service DS) (tick : bool) :
  waiting s = 0%nat -> refreshTask store s tick = s.
Proof. unfold refreshTask. now intros ->. Qed.

Lemma select_blocked (s : Service DS) :
  cancelled (ctx (api s)) = false -> refreshTask store s false = s.
Proof.
  unfold refreshTask, Done. cbn [closed]. intros ->. now destruct (waiting s).
Qed.

Lemma select_cancelled (s : Service DS) (tick : bool) :
  cancelled (ctx (api s)) = true ->
  refreshTask store s tick
  = match waiting s with O => s | S _ => exitOne s end.
Proof.
  unfold refreshTask, Done. cbn [closed]. now intros ->.
Qed.

Lemma select_tick (s : Service DS) (n : nat) :
  waiting s = S n -> cancelled (ctx (api s)) = false ->
  waiting (refreshTask store s true) = n
  /\ refreshes (refreshTask store s true) = S (refreshes s)
  /\ ctx (api (refreshTask store s true)) = ctx (api s)
  /\ spawned (refreshTask store s true) = spawned s.
Proof.
  intros Hw Hc. unfold refreshTask, Done. cbn [closed]. rewrite Hw, Hc.
  pose proof (refreshes_refresh s) as Hr.
  pose proof (refresh_keeps_context s) as (Hctx & Hwait & Hsp).
  destruct (refresh store s) as [s1 [cnt err]]. cbn [fst] in *.
  destruct err as [e|]; unfold exitOne, emit;
    cbn [waiting api spawned trace]; rewrite Hwait, Hw; cbn [Nat.pred].
  - repeat split; try assumption.
    rewrite <- Hr. apply (refreshes_emit_log s1 Error).
  - repeat split; try assumption.
    rewrite <- Hr. apply (refreshes_emit_known s1 cnt).
Qed.

(** A select without a tick leaves the API and the trace as they were. *)
Lemma select_quiet (s : Service DS) :
  api (refreshTask store s false) = api s
  /\ trace (refreshTask store s false) = trace s
  /\ spawned (refreshTask store s false) = spawned s.
Proof.
  unfold refreshTask. destruct (waiting s); [repeat split|].
  destruct (closed (Done (ctx (api s)))); repeat split.
Qed.

(** What every select keeps: the context, the number of goroutines
    spawned; it never drops a refresh from the trace, and every refresh it
    adds is paid by a goroutine that no longer waits. *)
Lemma select_keeps (s : Service DS) (tick : bool) :
  ctx (api (refreshTask store s tick)) = ctx (api s)
  /\ spawned (refreshTask store s tick) = spawned s
  /\ (refreshes s <= refreshes (refreshTask store s tick))%nat
  /\ (refreshes (refreshTask store s tick) + waiting (refreshTask store s tick)
      <= refreshes s + waiting s)%nat.
Proof.
  destruct (waiting s) as [|n] eqn:Hw.
  - rewrite select_none by assumption. rewrite Hw. repeat split; lia.
  - destruct (cancelled (ctx (api s))) eqn:Hc.
    + rewrite select_cancelled by assumption. rewrite Hw.
      unfold exitOne, refreshes. cbn [api spawned waiting trace]. rewrite Hw.
      cbn [Nat.pred]. repeat split; lia.
    + destruct tick.
      * destruct (select_tick s n Hw Hc) as (H1 & H2 & H3 & H4).
        rewrite H1, H2. repeat split; try assumption; lia.
      * rewrite select_blocked by assumption. rewrite Hw. repeat split; lia.
Qed.

(** *** All waiting goroutines at their selects *)

Lemma selects_keep (tick : bool) (n : nat) (s : Service DS) :
  ctx (api (Nat.iter n (select tick) s)) = ctx (api s)
  /\ spawned (Nat.iter n (select tick) s) = spawned s
  /\ (refreshes s <= refreshes (Nat.iter n (select tick) s))%nat
  /\ (refreshes (Nat.iter n (select tick) s) + waiting (Nat.iter n (select tick) s)
      <= refreshes s + waiting s)%nat.
Proof.
  induction n as [|n IH]; [cbn; repeat split; lia|].
  rewrite Nat.iter_succ.
  destruct IH as (I1 & I2 & I3 & I4).
  destruct (select_keeps (Nat.iter n (select tick) s) tick) as (K1 & K2 & K3 & K4).
  repeat split; try congruence; lia.
Qed.

Lemma selects_quiet (n : nat) (s : Service DS) :
  api (Nat.iter n (select false) s) = api s
  /\ trace (Nat.iter n (select false) s) = trace s.
Proof.
  induction n as [|n [I1 I2]]; [split; reflexivity|].
  rewrite Nat.iter_succ.
  destruct (select_quiet (Nat.iter n (select false) s)) as (K1 & K2 & _).
  split; congruence.
Qed.

Lemma selects_blocked (n : nat) (s : Service DS) :
  cancelled (ctx (api s)) = false -> Nat.iter n (select false) s = s.
Proof.
  intros Hc. induction n as [|n IH]; [reflexivity|].
  rewrite Nat.iter_succ. rewrite IH. now apply select_blocked.
Qed.


Lemma selects_tick (n : nat) (s : Service DS) :
  cancelled (ctx (api s)) = false ->
  waiting (Nat.iter n (select true) s) = (waiting s - n)%nat
  /\ refreshes (Nat.iter n (select true) s)
     = (refreshes s + Nat.min n (waiting s))%nat.
Proof.
  intros Hc. induction n as [|n [I1 I2]]; [split; cbn; lia|].
  rewrite Nat.iter_succ.
  destruct (selects_keep true n s) as (K1 & _).
  destruct (waiting (Nat.iter n (select true) s)) as [|m] eqn:Hw.
  - rewrite select_none by assumption. rewrite Hw. split; lia.
  - destruct (select_tick (Nat.iter n (select true) s) m Hw) as (H1 & H2 & _);
      [congruence|].
    rewrite H1, H2. split; lia.
Qed.

(** A whole period wakes every waiting goroutine: each refreshes once and
    returns. *)
Lemma wake_tick (s : Service DS) :
  cancelled (ctx (api s)) = false ->
  waiting (wake store s true) = 0%nat
  /\ refreshes (wake store s true) = (refreshes s + waiting s)%nat
  /\ spawned (wake store s true) = spawned s.
Proof.
  intros Hc. unfold wake.
  destruct (selects_tick (waiting s) s Hc) as [H1 H2].
  destruct (selects_keep true (waiting s) s) as (_ & H3 & _).
  repeat split; [lia | lia | assumption].
Qed.


(** What every event around the service keeps. *)
Lemma step_keeps (s : Service DS) (e : Env) :
  spawned (step s e) = spawned s
  /\ (refreshes s <= refreshes (step s e))%nat
  /\ (refreshes (step s e) + waiting (step s e) <= refreshes s + waiting s)%nat.
Proof.
  destruct e; cbn [proposer.step].
  - unfold wake. cbn [waiting].
    match goal with
    | |- context [Nat.iter ?n _ ?s0] =>
        destruct (selects_keep false n s0) as (_ & H2 & H3 & H4)
    end.
    unfold refreshes in *. cbn [spawned waiting trace] in *. repeat split; assumption.
  - unfold wake. destruct (selects_keep true (waiting s) s) as (_ & H2 & H3 & H4).
    repeat split; assumption.
  - unfold Stop. cbn [fst]. repeat split; lia.
Qed.

Lemma run_keeps (es : list Env) :
  forall s : Service DS,
    spawned (run s es) = spawned s
    /\ (refreshes s <= refreshes (run s es))%nat
    /\ (refreshes (run s es) + waiting (run s es) <= refreshes s + waiting s)%nat.
Proof.
  induction es as [|e es IH]; intros s; [cbn; repeat split; lia|].
  cbn [proposer.run fold_left]. fold (run (step s e) es).
  destruct (step_keeps s e) as (S1 & S2 & S3).
  destruct (IH (step s e)) as (R1 & R2 & R3).
  repeat split; [congruence | lia | lia].
Qed.

(** Once no goroutine waits, nothing around the service makes it refresh
    again. *)
Lemma run_not_waiting (es : list Env) (s : Service DS) :
  waiting s = 0%nat ->
  waiting (run s es) = 0%nat
  /\ refreshes (run s es) = refreshes s
  /\ refresher (run s es) = refresher s.
Proof.
  intros Hw. destruct (run_keeps es s) as (R1 & R2 & R3).
  assert (W : waiting (run s es) = 0%nat) by lia.
  repeat split; [assumption | lia|].
  unfold refresher. now rewrite W, Hw, R1.
Qed.

Lemma Start_refreshes_once (s : Service DS) :
  refreshes (fst (Start s)) = S (refreshes s).
Proof.
  pose proof (refreshes_refresh s) as Hr.
  unfold proposer.Start.
  destruct (refresh store s) as [s1 [cnt err]]. cbn [fst] in *.
  destruct err as [e|]; cbn [fst]; [assumption|].
  unfold wake, refreshes.
  match goal with
  | |- context [Nat.iter ?n _ ?s0] =>
      destruct (selects_quiet n s0) as [_ Ht]; rewrite Ht
  end.
  cbn [spawn trace]. fold (refreshes (emit s1 [logKnownValidators cnt])).
  now rewrite refreshes_emit_known.
Qed.

Lemma Start_spawned (s : Service DS) :
  (waiting (fst (Start s)) <= S (waiting s))%nat
  /\ (snd (Start s) <> None ->
      waiting (fst (Start s)) = waiting s /\ spawned (fst (Start s)) = spawned s)
  /\ (snd (Start s) = None -> spawned (fst (Start s)) = S (spawned s)).
Proof.
  pose proof (refreshes_refresh s) as Hr.
  pose proof (refresh_keeps_context s) as (_ & Hw & Hs).
  pose proof (Start_refreshes_once s) as Ho. revert Ho.
  unfold proposer.Start.
  destruct (refresh store s) as [s1 [cnt err]]. cbn [fst] in *.
  destruct err as [e|]; cbn [fst snd]; intros Ho.
  - split; [lia|]. split; [intros _; split; assumption | discriminate].
  - unfold wake in *.
    match goal with
    | |- context [Nat.iter ?n _ ?s0] =>
        destruct (selects_keep false n s0) as (_ & K2 & K3 & K4)
    end.
    unfold refreshes in *. cbn [spawn emit waiting spawned trace] in *.
    split; [lia|]. split; [intros Hne; now elim Hne|].
    intros _. congruence.
Qed.

Lemma Start_ok (s : Service DS) :
  snd (Start s) = None -> cancelled (ctx (api s)) = false ->
  waiting (fst (Start s)) = S (waiting s)
  /\ cancelled (ctx (api (fst (Start s)))) = false
  /\ refreshes (fst (Start s)) = S (refreshes s)
  /\ spawned (fst (Start s)) = S (spawned s).
Proof.
  intros Hok Hc.
  pose proof (Start_refreshes_once s) as Hr.
  destruct (Start_spawned s) as (_ & _ & Hs). specialize (Hs Hok).
  revert Hok Hr Hs. unfold proposer.Start.
  pose proof (refresh_keeps_context s) as (Hctx & Hw & _).
  destruct (refresh store s) as [s1 [cnt err]]. cbn [fst] in *.
  destruct err as [e|]; cbn [fst snd]; [discriminate|].
  intros _ Hr Hs. unfold wake in *.
  assert (Hb : cancelled (ctx (api (spawn (emit s1 [logKnownValidators cnt])))) = false)
    by (cbn [spawn emit api]; congruence).
  rewrite (selects_blocked _ _ Hb) in *.
  cbn [spawn emit waiting api] in *.
  repeat split; [congruence | congruence | assumption | assumption].
Qed.

(** C4, what the code does: each goroutine selects once. After a start
    that succeeds, the first tick brings one more refresh from the
    goroutine of this start (and one from each goroutine an earlier start
    left waiting, none on a service not started before); all of them
    return, and whatever follows (more ticks included) brings no refresh:
    on a service not started before the count stays at two, the one of
    the start and one driven by a tick. *)
Theorem refresh_task_exits_after_first_tick (s : Service DS) (es : list Env) :
  snd (Start s) = None ->
  cancelled (ctx (api s)) = false ->
  refreshes (run (fst (Start s)) (TickerFires :: es))
  = (refreshes s + 2 + waiting s)%nat
  /\ refresher (run (fst (Start s)) (TickerFires :: es)) = Exited.
Proof.
  intros Hok Hc.
  destruct (Start_ok s Hok Hc) as (Hw & Hc' & Hr & Hs).
  cbn [proposer.run fold_left]. fold (run (step (fst (Start s)) TickerFires) es).
  cbn [proposer.step].
  destruct (wake_tick (fst (Start s)) Hc') as (W1 & W2 & W3).
  destruct (run_not_waiting es _ W1) as (R1 & R2 & R3).
  split; [lia|].
  rewrite R3. apply refresher_exited; [assumption|].
  rewrite W3, Hs. discriminate.
Qed.

(** On a service not started before, [Start] and its goroutine refresh
    the known validators twice at most, however long the service runs. *)
Lemma refreshes_at_most_two (s : Service DS) (es : list Env) :
  refresher s = NotStarted ->
  (refreshes (run (fst (Start s)) es) <= refreshes s + 2)%nat.
Proof.
  intros Hn. apply refresher_not_started in Hn as [Hw _].
  destruct (run_keeps es (fst (Start s))) as (_ & _ & H).
  pose proof (Start_refreshes_once s) as Hr.
  destruct (Start_spawned s) as (Hs & _). lia.
Qed.

(** C7: [Start] returns the error of the first refresh, so it fails exactly
    when that refresh fails, and then no goroutine is spawned; a first
    refresh that succeeds with no validators is logged as a warning and
    the service starts. *)
Theorem Start_fails_iff_refresh_fails (s : Service DS) :
  snd (Start s) = snd (snd (firstRefresh s))
  /\ (snd (snd (firstRefresh s)) <> None ->
      refresher (fst (Start s)) = refresher s
      /\ trace (fst (Start s))
         = (trace s ++ [EvRefreshKnownValidators (fst (snd (firstRefresh s)))
                          (snd (snd (firstRefresh s)))])%list)
  /\ (snd (snd (firstRefresh s)) = None -> fst (snd (firstRefresh s)) = 0 ->
      snd (Start s) = None
      /\ refresher (fst (Start s)) <> NotStarted
      /\ trace (fst (Start s))
         = (trace s ++ [EvRefreshKnownValidators 0 None;
                        EvLog Warn NoneKnownMsg])%list).
Proof.
  unfold proposer.Start, refresh.
  destruct (firstRefresh s) as [ds [cnt err]]. cbn [fst snd].
  destruct err as [e|]; cbn [fst snd].
  - split; [reflexivity|]. split; [intros _; split; reflexivity|discriminate].
  - split; [reflexivity|]. split; [intros H; now elim H|].
    intros _ ->. split; [reflexivity|].
    unfold wake.
    match goal with
    | |- context [Nat.iter ?n _ ?s0] =>
        destruct (selects_quiet n s0) as [_ Ht];
        destruct (selects_keep false n s0) as (_ & Hs & _)
    end.
    split.
    + intros Hn. apply refresher_not_started in Hn as [_ Hn].
      rewrite Hs in Hn. discriminate.
    + rewrite Ht. cbn [spawn emit trace]. rewrite <- app_assoc. reflexivity.
Qed.

(** C10: [Stop] returns nil and leaves the service as it was, the context
    included; what happens around the service has the same effect after a
    call of [Stop] as before it, and calls of [Stop] can be dropped from
    any run. *)
Theorem Stop_changes_nothing (s : Service DS) :
  Stop s = (s, None)
  /\ cancelled (ctx (api (fst (Stop s)))) = cancelled (ctx (api s))
  /\ (forall es, run (fst (Stop s)) es = run s es)
  /\ (forall es,
        run s es
        = run s (filter (fun e => match e with CallStop => false | _ => true end) es)).
Proof.
  split; [reflexivity|]. split; [reflexivity|]. split; [reflexivity|].
  intros es. revert s. induction es as [|e es IH]; intros s; [reflexivity|].
  destruct e; cbn [filter proposer.run fold_left]; apply IH.
Qed.

End ServiceFacts.

(** C4, on the in-memory store and a service not started before (no
    goroutine waits): a start and three ticks make two refreshes, not
    four. *)
Lemma refresh_task_exits_after_first_tick_witness :
  proposer.refreshes
    (proposer.run testing.memDatastore
       (fst (proposer.Start testing.memDatastore (testing.serviceOn testing.store0)))
       [proposer.TickerFires; proposer.TickerFires; proposer.TickerFires])
  = (proposer.refreshes (testing.serviceOn testing.store0) + 2
     + proposer.waiting (testing.serviceOn testing.store0))%nat
  /\ proposer.refresher
       (proposer.run testing.memDatastore
          (fst (proposer.Start testing.memDatastore (testing.serviceOn testing.store0)))
          [proposer.TickerFires; proposer.TickerFires; proposer.TickerFires])
     = proposer.Exited.
Proof.
  apply (refresh_task_exits_after_first_tick testing.memDatastore
           (testing.serviceOn testing.store0)
           [proposer.TickerFires; proposer.TickerFires]); reflexivity.
Defined.

(** C7, on a store whose refresh fails and on a store that knows no
    validator. *)
Lemma Start_fails_iff_refresh_fails_witness :
  snd (proposer.Start testing.memDatastore (testing.serviceOn testing.brokenStore))
  = Some "connection refused"
  /\ snd (proposer.Start testing.memDatastore (testing.serviceOn testing.emptyStore))
     = None
  /\ proposer.refresher
       (fst (proposer.Start testing.memDatastore (testing.serviceOn testing.emptyStore)))
     <> proposer.NotStarted.
Proof.
  split; [|split].
  - apply (proj1 (Start_fails_iff_refresh_fails testing.memDatastore
                    (testing.serviceOn testing.brokenStore))).
  - apply (proj2 (proj2 (Start_fails_iff_refresh_fails testing.memDatastore
                           (testing.serviceOn testing.emptyStore)))); reflexivity.
  - apply (proj2 (proj2 (Start_fails_iff_refresh_fails testing.memDatastore
                           (testing.serviceOn testing.emptyStore)))); reflexivity.
Defined.

(** Every successful start spawns a goroutine of its own: two starts and
    three periods make four refreshes, two by the starts and one by each
    goroutine. *)
Lemma two_starts_three_ticks :
  proposer.refreshes
    (proposer.run testing.memDatastore
       (fst (proposer.Start testing.memDatastore
               (fst (proposer.Start testing.memDatastore
                       (testing.serviceOn testing.store0)))))
       [proposer.TickerFires; proposer.TickerFires; proposer.TickerFires])
  = 4%nat.
Proof. reflexivity. Qed.

(** ** package common *)
Section CommonFacts.
Import common spec.

(** C5, what the code does: whenever the URL parses, the constructor reads
    [entry.URL] while [entry] is still nil, and panics. *)
Theorem NewBuilderEntry_panics_when_url_parses
  (url_Parse : string -> option url.URL * error)
  (hexutil_UnmarshalText : string -> string + bytes)
  (builderURL : string) (u : option url.URL) :
  url_Parse (withScheme builderURL) = (u, None) ->
  NewBuilderEntry url_Parse hexutil_UnmarshalText builderURL
  = Go.Panics "invalid memory address or nil pointer dereference".
Proof.
  intros H. unfold NewBuilderEntry. cbv zeta. rewrite H. reflexivity.
Qed.

(** The constructor returns no entry on any input: it returns nil with
    the parser's error, or it panics. *)
Lemma NewBuilderEntry_never_returns_entry
  (url_Parse : string -> option url.URL * error)
  (hexutil_UnmarshalText : string -> string + bytes)
  (builderURL : string) :
  (exists e, NewBuilderEntry url_Parse hexutil_UnmarshalText builderURL
             = Go.Returns (None, Some e))
  \/ NewBuilderEntry url_Parse hexutil_UnmarshalText builderURL
     = Go.Panics "invalid memory address or nil pointer dereference".
Proof.
  unfold NewBuilderEntry. cbv zeta.
  destruct (url_Parse (withScheme builderURL)) as [u [e|]].
  - left. now exists e.
  - right. reflexivity.
Qed.

Lemma withScheme_prefixes (builderURL : string) :
  String.prefix "http" builderURL = false ->
  withScheme builderURL = "http://" ++ builderURL.
Proof. unfold withScheme. now intros ->. Qed.

(** C9: the four supported names resolve to the details of the table,
    under the name given; every other name yields nil and the
    unknown-network error; no result is ever both details and an error, or
    neither; and the result is determined by the name. *)
Theorem NewEthNetworkDetails_closed_table (types : NetworkConstants) (name : string) :
  NewEthNetworkDetails types EthNetworkKiln
  = (Some {| Name := "kiln";
             GenesisForkVersionHex := GenesisForkVersionKiln types;
             GenesisValidatorsRootHex := GenesisValidatorsRootKiln types;
             BellatrixForkVersionHex := BellatrixForkVersionKiln types |}, None)
  /\ NewEthNetworkDetails types EthNetworkRopsten
     = (Some {| Name := "ropsten";
                GenesisForkVersionHex := GenesisForkVersionRopsten types;
                GenesisValidatorsRootHex := GenesisValidatorsRootRopsten types;
                BellatrixForkVersionHex := BellatrixForkVersionRopsten types |}, None)
  /\ NewEthNetworkDetails types EthNetworkSepolia
     = (Some {| Name := "sepolia";
                GenesisForkVersionHex := GenesisForkVersionSepolia types;
                GenesisValidatorsRootHex := GenesisValidatorsRootSepolia types;
                BellatrixForkVersionHex := BellatrixForkVersionSepolia types |}, None)
  /\ NewEthNetworkDetails types EthNetworkGoerliShadowFork5
     = (Some {| Name := "goerli-shadow-fork-5";
                GenesisForkVersionHex := "0x13001034";
                GenesisValidatorsRootHex :=
                  "0xe45f26d5a29b0ed5a9f62f248b842a30dd7b7fba0b5b104eab271efc04e0cf66";
                BellatrixForkVersionHex := "0x22001034" |}, None)
  /\ (~ In name supportedNetworks ->
      NewEthNetworkDetails types name = (None, Some ("unknown network: " ++ name)))
  /\ (In name supportedNetworks ->
      exists d, NewEthNetworkDetails types name = (Some d, None) /\ Name d = name)
  /\ (forall r1 r2,
        NewEthNetworkDetails types name = r1 ->
        NewEthNetworkDetails types name = r2 -> r1 = r2)
  /\ (forall computeDomain r1 r2,
        resolveSigningDomain types computeDomain name = r1 ->
        resolveSigningDomain types computeDomain name = r2 -> r1 = r2).
Proof.
  repeat split; try reflexivity.
  - intros Hn. unfold NewEthNetworkDetails. cbv zeta.
    unfold supportedNetworks in Hn. cbn [In] in Hn.
    destruct (String.eqb_spec name EthNetworkKiln) as [->|_]; [elim Hn; tauto|].
    destruct (String.eqb_spec name EthNetworkRopsten) as [->|_]; [elim Hn; tauto|].
    destruct (String.eqb_spec name EthNetworkSepolia) as [->|_]; [elim Hn; tauto|].
    destruct (String.eqb_spec name EthNetworkGoerliShadowFork5) as [->|_];
      [elim Hn; tauto|].
    reflexivity.
  - unfold supportedNetworks. cbn [In].
    intros [<- | [<- | [<- | [<- | []]]]]; eexists; split; reflexivity.
  - congruence.
  - congruence.
Qed.

End CommonFacts.

(** C5, at an address without scheme: [http://] is put in front, the
    address parses, and the constructor panics instead of returning. *)
Lemma NewBuilderEntry_panics_when_url_parses_witness :
  common.NewBuilderEntry testing.parseTable testing.unhex "localhost:8080"
  = Go.Panics "invalid memory address or nil pointer dereference".
Proof.
  apply (NewBuilderEntry_panics_when_url_parses testing.parseTable testing.unhex
           "localhost:8080"
           (Some {| url.Scheme := "http"; url.User := None;
                    url.Host := "localhost:8080"; url.Path := "" |})).
  reflexivity.
Defined.

(** C9, at the constants of the test double: an unknown name and the name
    of a supported network. *)
Lemma NewEthNetworkDetails_closed_table_witness :
  common.NewEthNetworkDetails testing.someConstants "mainnet"
  = (None, Some "unknown network: mainnet")
  /\ exists d,
       common.NewEthNetworkDetails testing.someConstants "sepolia" = (Some d, None)
       /\ common.Name d = "sepolia".
Proof.
  split.
  - apply (proj1 (proj2 (proj2 (proj2 (proj2
             (NewEthNetworkDetails_closed_table testing.someConstants "mainnet")))))).
    vm_compute. intuition discriminate.
  - apply (proj1 (proj2 (proj2 (proj2 (proj2 (proj2
             (NewEthNetworkDetails_closed_table testing.someConstants "sepolia"))))))).
    vm_compute. tauto.
Defined.

(** * Further properties of the handlers, the service and the constructors *)

(** ** get-header *)
Section GetHeaderMore.
Import strconv proposer spec.

Lemma getHeader_answer_cases (k : http.WriterKind) (slot hash pubkey : string) :
  snd (ParseUint slot) = None ->
  let w := snd (handleGetHeader (http.NewWriter k) slot hash pubkey) in
  (String.length pubkey <> 98%nat /\ answer w = clientError common.ErrInvalidPubkey)
  \/ (String.length pubkey = 98%nat /\ String.length hash <> 66%nat
      /\ answer w = clientError common.ErrInvalidHash)
  \/ (String.length pubkey = 98%nat /\ String.length hash = 66%nat
      /\ http.status w = Some 204).
Proof.
  intros Hs. cbv zeta. unfold handleGetHeader. rewrite Hs.
  destruct (String.length pubkey =? 98)%nat eqn:Hp.
  - apply Nat.eqb_eq in Hp.
    destruct (String.length hash =? 66)%nat eqn:Hh.
    + apply Nat.eqb_eq in Hh. right. right.
      repeat split; try assumption. destruct k; reflexivity.
    + apply Nat.eqb_neq in Hh. right. left.
      repeat split; try assumption. apply RespondError_400.
  - apply Nat.eqb_neq in Hp. left. split; [assumption | apply RespondError_400].
Qed.

(** X1: get-header answers with the invalid-slot error exactly when the
    slot is empty, holds a byte that is no decimal digit, or stands for a
    number above 2^64-1; the pubkey and the parent hash play no part. *)
Theorem getHeader_invalid_slot_iff
  (k : http.WriterKind) (slot parentHashHex pubkey : string) :
  answer (snd (handleGetHeader (http.NewWriter k) slot parentHashHex pubkey))
  = clientError common.ErrInvalidSlot
  <-> (slot = "" \/ all_digits slot = false \/ maxUint64 < decimal_value slot).
Proof.
  split.
  - intros Ha.
    destruct (snd (ParseUint slot)) eqn:Hs.
    + destruct (string_dec slot "") as [He | He]; [now left|].
      destruct (all_digits slot) eqn:Hd; [|right; now left].
      right. right.
      destruct (Z_lt_le_dec maxUint64 (decimal_value slot)) as [Hv | Hv];
        [assumption|].
      assert (Hok : snd (ParseUint slot) = None)
        by (apply ParseUint_accepts; auto).
      congruence.
    + exfalso.
      destruct (getHeader_answer_cases k slot parentHashHex pubkey Hs)
        as [[_ H] | [(_ & _ & H) | (_ & _ & H)]].
      * rewrite H in Ha. discriminate.
      * rewrite H in Ha. discriminate.
      * unfold answer in Ha. rewrite H in Ha. discriminate.
  - intros H.
    rewrite handleGetHeader_bad_slot; [apply RespondError_400|].
    intros Hok. apply ParseUint_accepts in Hok as (Hne & Hd & Hv).
    destruct H as [H | [H | H]]; [contradiction | congruence | lia].
Qed.

(** X2: the status of a get-header response is 204 or 400, and it is 204
    exactly when the slot parses, the pubkey has 98 characters and the
    parent hash has 66; the handler never answers 200. *)
Theorem getHeader_status_204_iff
  (k : http.WriterKind) (slot parentHashHex pubkey : string) :
  let w := snd (handleGetHeader (http.NewWriter k) slot parentHashHex pubkey) in
  (http.status w = Some 204 \/ http.status w = Some 400)
  /\ (http.status w = Some 204
      <-> snd (ParseUint slot) = None
          /\ String.length pubkey = 98%nat
          /\ String.length parentHashHex = 66%nat).
Proof.
  cbv zeta.
  destruct (snd (ParseUint slot)) eqn:Hs.
  - assert (Hb : snd (ParseUint slot) <> None) by (rewrite Hs; discriminate).
    rewrite handleGetHeader_bad_slot by assumption. cbn [snd].
    pose proof (RespondError_400 k common.ErrInvalidSlot) as Ha.
    apply (f_equal fst) in Ha. cbn [answer clientError fst] in Ha.
    rewrite Ha. split; [now right|].
    split; [discriminate | intros (H & _); discriminate].
  - destruct (getHeader_answer_cases k slot parentHashHex pubkey Hs)
      as [[Hp H] | [(Hp & Hh & H) | (Hp & Hh & H)]].
    + apply (f_equal fst) in H. cbn [answer clientError fst] in H.
      rewrite H. split; [now right|].
      split; [discriminate | intros (_ & Hp' & _); contradiction].
    + apply (f_equal fst) in H. cbn [answer clientError fst] in H.
      rewrite H. split; [now right|].
      split; [discriminate | intros (_ & _ & Hh'); contradiction].
    + rewrite H. split; [now left|]. split; [intros _; auto | reflexivity].
Qed.

(** X3: when all three checks pass, a server connection refuses the body
    at status 204, so the handler logs that it could not write the
    response and its later 500 is ignored: the status stays 204 and the
    body empty. A recorder takes the body and nothing is logged beside the
    invocation. *)
Theorem getHeader_no_content_write_error (slot parentHashHex pubkey : string) :
  snd (ParseUint slot) = None ->
  String.length pubkey = 98%nat ->
  String.length parentHashHex = 66%nat ->
  observe.logged (fst (handleGetHeader (http.NewWriter http.ServerConn)
                         slot parentHashHex pubkey))
  = [(Info, "getHeader"); (Error, "Couldn't write getHeader response")]
  /\ answer (snd (handleGetHeader (http.NewWriter http.ServerConn)
                    slot parentHashHex pubkey))
     = (Some 204, [])
  /\ observe.logged (fst (handleGetHeader (http.NewWriter http.Recorder)
                            slot parentHashHex pubkey))
     = [(Info, "getHeader")].
Proof.
  intros Hs Hp Hh. unfold handleGetHeader. rewrite Hs.
  apply Nat.eqb_eq in Hp, Hh. rewrite Hp, Hh.
  repeat split.
Qed.

End GetHeaderMore.

Lemma getHeader_no_content_write_error_witness :
  observe.logged
    (fst (proposer.handleGetHeader (http.NewWriter http.ServerConn)
            "123" testing.hash66 testing.pubkey98))
  = [(proposer.Info, "getHeader");
     (proposer.Error, "Couldn't write getHeader response")]
  /\ spec.answer
       (snd (proposer.handleGetHeader (http.NewWriter http.ServerConn)
               "123" testing.hash66 testing.pubkey98))
     = (Some 204, [])
  /\ observe.logged
       (fst (proposer.handleGetHeader (http.NewWriter http.Recorder)
               "123" testing.hash66 testing.pubkey98))
     = [(proposer.Info, "getHeader")].
Proof.
  apply (getHeader_no_content_write_error "123" testing.hash66 testing.pubkey98);
    reflexivity.
Defined.

(** ** The register handler *)
Section RegisterMore.
Import proposer spec observe.
Context {DS : Type}.
Variable store : ProposerDatastore DS.
Variable lib : Libraries.

Local Abbreviation process := (processRegistration store lib).
Local Abbreviation loop := (registerAll store lib).
Local Abbreviation handle := (handleRegisterValidator store lib).
Local Abbreviation hexOf r := (NewPubkeyHex lib (Pubkey (Message r))).
Local Abbreviation passes := (passesEveryCheck store lib).

Lemma membershipQueries_app (a b : list Event) :
  membershipQueries (a ++ b) = (membershipQueries a ++ membershipQueries b)%list.
Proof. apply flat_map_app. Qed.

Lemma verifications_app (a b : list Event) :
  verifications (a ++ b) = (verifications a ++ verifications b)%list.
Proof. apply flat_map_app. Qed.

Lemma calls_app (a b : list Event) : calls (a ++ b) = (calls a ++ calls b)%list.
Proof. apply filter_app. Qed.

(** The four ways an entry ends, with what it leaves behind. *)
Lemma process_cases (api : ProposerAPI DS) (r : SignedValidatorRegistration) :
  (wellFormed r = false /\ process api r = (api, []))
  \/ (wellFormed r = true /\ knownValidator store lib api r = false
      /\ fst (process api r) = api
      /\ membershipQueries (snd (process api r)) = [hexOf r]
      /\ verifications (snd (process api r)) = [])
  \/ (wellFormed r = true /\ knownValidator store lib api r = true
      /\ validSignature lib api r = false
      /\ fst (process api r) = api
      /\ membershipQueries (snd (process api r)) = [hexOf r]
      /\ verifications (snd (process api r)) = [r])
  \/ (wellFormed r = true /\ knownValidator store lib api r = true
      /\ validSignature lib api r = true
      /\ fst (process api r)
         = withStore api (fst (UpdateValidatorRegistration store (datastore api) r))
      /\ membershipQueries (snd (process api r)) = [hexOf r]
      /\ verifications (snd (process api r)) = [r]).
Proof.
  destruct (wellFormed r) eqn:Hw;
    [|left; split; [reflexivity | now apply process_malformed]].
  right.
  destruct (knownValidator store lib api r) eqn:Hk.
  - right.
    destruct (validSignature lib api r) eqn:Hv.
    + right. rewrite (process_accepted store lib api r Hw Hk Hv).
      repeat split.
      * cbn [snd]. rewrite membershipQueries_app.
        destruct (snd (UpdateValidatorRegistration store (datastore api) r));
          reflexivity.
      * cbn [snd]. rewrite verifications_app.
        destruct (snd (UpdateValidatorRegistration store (datastore api) r));
          reflexivity.
    + left. rewrite (process_unverified store lib api r Hw Hk Hv).
      repeat split.
  - left. rewrite (process_unknown store lib api r Hw Hk). repeat split.
Qed.

(** An entry leaves the context and the signing domain as they were. *)
Lemma process_keeps_config (api : ProposerAPI DS) (r : SignedValidatorRegistration) :
  ctx (fst (process api r)) = ctx api
  /\ builderSigningDomain (fst (process api r)) = builderSigningDomain api.
Proof.
  destruct (process_api store lib api r) as [E | E]; rewrite E; split; reflexivity.
Qed.

Lemma process_keeps_known (api : ProposerAPI DS) (r r' : SignedValidatorRegistration) :
  membershipStable store ->
  knownValidator store lib (fst (process api r)) r'
  = knownValidator store lib api r'.
Proof.
  intros Hst. destruct (process_api store lib api r) as [E | E]; rewrite E;
    [reflexivity|].
  unfold knownValidator, withStore. cbn [datastore]. apply Hst.
Qed.

Lemma loop_membershipQueries (payload : list SignedValidatorRegistration) :
  forall api,
    membershipQueries (snd (loop api payload))
    = map (fun r => hexOf r) (filter wellFormed payload).
Proof.
  induction payload as [|r rest IH]; intros api; [reflexivity|].
  cbn [registerAll filter].
  pose proof (process_cases api r) as Hc.
  destruct (process api r) as [api1 evs1]. cbn [fst snd] in Hc.
  specialize (IH api1).
  destruct (loop api1 rest) as [api2 evs2]. cbn [fst snd] in *.
  rewrite membershipQueries_app, IH.
  destruct Hc as [[Hw E] | [(Hw & _ & _ & E & _) | [(Hw & _ & _ & _ & E & _)
                                                   | (Hw & _ & _ & _ & E & _)]]];
    rewrite Hw; try rewrite E; try (inversion E; subst evs1); reflexivity.
Qed.

Lemma loop_verifications (payload : list SignedValidatorRegistration) :
  membershipStable store ->
  forall api,
    verifications (snd (loop api payload))
    = filter (fun r => wellFormed r && knownValidator store lib api r) payload.
Proof.
  intros Hst. induction payload as [|r rest IH]; intros api; [reflexivity|].
  cbn [registerAll filter].
  pose proof (process_cases api r) as Hc.
  pose proof (fun r' => process_keeps_known api r r' Hst) as Hk.
  destruct (process api r) as [api1 evs1]. cbn [fst snd] in Hc, Hk.
  specialize (IH api1).
  destruct (loop api1 rest) as [api2 evs2]. cbn [fst snd] in *.
  rewrite verifications_app, IH.
  assert (Hf : filter (fun r0 => wellFormed r0 && knownValidator store lib api1 r0) rest
               = filter (fun r0 => wellFormed r0 && knownValidator store lib api r0) rest).
  { apply filter_ext. intros r0. now rewrite Hk. }
  rewrite Hf.
  destruct Hc as [[Hw E] | [(Hw & Hn & _ & _ & E) | [(Hw & Hn & _ & _ & _ & E)
                                                    | (Hw & Hn & _ & _ & _ & E)]]];
    rewrite Hw; try rewrite Hn; try rewrite E;
    try (inversion E; subst evs1); reflexivity.
Qed.

Lemma loop_store (payload : list SignedValidatorRegistration) :
  membershipStable store ->
  forall api,
    datastore (fst (loop api payload))
    = updatedBy store (datastore api) (filter (passes api) payload)
    /\ ctx (fst (loop api payload)) = ctx api
    /\ builderSigningDomain (fst (loop api payload)) = builderSigningDomain api.
Proof.
  intros Hst. induction payload as [|r rest IH]; intros api;
    [repeat split|].
  cbn [registerAll filter].
  pose proof (process_cases api r) as Hc.
  pose proof (process_keeps_config api r) as [Hctx Hdom].
  pose proof (fun r' => process_keeps_checks store lib api r r' Hst) as Hk.
  destruct (process api r) as [api1 evs1]. cbn [fst snd] in Hc, Hk, Hctx, Hdom.
  destruct (IH api1) as (IHs & IHc & IHd).
  destruct (loop api1 rest) as [api2 evs2]. cbn [fst snd] in *.
  rewrite (filter_ext _ _ Hk) in IHs.
  split; [|split; congruence].
  rewrite IHs. unfold passesEveryCheck at 2.
  destruct Hc as [[Hw E] | [(Hw & Hn & E & _) | [(Hw & Hn & Hv & E & _)
                                                | (Hw & Hn & Hv & E & _)]]];
    rewrite Hw; try rewrite Hn; try rewrite Hv; cbn [andb];
    try (inversion E; subst api1); try (rewrite E); reflexivity.
Qed.

(** X4: a register request whose body does not decode is answered 400
    with the decoder's message; the API object is as before, nothing is
    asked of the store and no signature is checked. *)
Theorem register_undecodable_body
  (api : ProposerAPI DS) (k : http.WriterKind) (body err : string) :
  DecodeRegistrations lib body = inl err ->
  answer (snd (handle api (http.NewWriter k) body)) = clientError err
  /\ fst (fst (handle api (http.NewWriter k) body)) = api
  /\ calls (snd (fst (handle api (http.NewWriter k) body))) = [].
Proof.
  intros H. unfold handleRegisterValidator. rewrite H. cbn [fst snd].
  split; [apply RespondError_400 | split; reflexivity].
Qed.

(** X5: a batch sent as two requests, its first part and then the rest,
    leaves the same API object and makes the same calls in the same order
    as the batch sent whole. *)
Theorem register_split_batch
  (api : ProposerAPI DS) (k : http.WriterKind) (whole first rest : string)
  (a b : list SignedValidatorRegistration) :
  DecodeRegistrations lib whole = inr (a ++ b)%list ->
  DecodeRegistrations lib first = inr a ->
  DecodeRegistrations lib rest = inr b ->
  let one := handle api (http.NewWriter k) whole in
  let fst_req := handle api (http.NewWriter k) first in
  let snd_req := handle (fst (fst fst_req)) (http.NewWriter k) rest in
  fst (fst one) = fst (fst snd_req)
  /\ calls (snd (fst one))
     = (calls (snd (fst fst_req)) ++ calls (snd (fst snd_req)))%list
  /\ answer (snd one) = answer (snd snd_req).
Proof.
  intros Hw Ha Hb. cbv zeta. unfold handleRegisterValidator.
  rewrite Hw, Ha, Hb. rewrite registerAll_app.
  destruct (loop api a) as [api1 evs1]. cbn [fst snd].
  destruct (loop api1 b) as [api2 evs2]. cbn [fst snd].
  split; [reflexivity|]. split; [|destruct k; reflexivity].
  rewrite !calls_app. reflexivity.
Qed.

(** X6: the store is asked about membership once for each entry with a
    key of 48 bytes and a signature of 96 bytes, in the order of the
    batch, and about no other entry. *)
Theorem register_membership_queries
  (api : ProposerAPI DS) (w : http.ResponseWriter) (body : string)
  (payload : list SignedValidatorRegistration) :
  DecodeRegistrations lib body = inr payload ->
  membershipQueries (snd (fst (handle api w body)))
  = map (fun r => hexOf r) (filter wellFormed payload).
Proof.
  intros H. unfold handleRegisterValidator. rewrite H.
  pose proof (loop_membershipQueries payload api) as Hq.
  destruct (loop api payload) as [api' evs]. cbn [fst snd] in *.
  rewrite membershipQueries_app. exact Hq.
Qed.

(** X7: with a store whose membership answers are not changed by
    registration updates, the signature is checked for exactly the
    well-formed entries of known validators, in the order of the batch. *)
Theorem register_signature_checks
  (api : ProposerAPI DS) (w : http.ResponseWriter) (body : string)
  (payload : list SignedValidatorRegistration) :
  DecodeRegistrations lib body = inr payload ->
  membershipStable store ->
  verifications (snd (fst (handle api w body)))
  = filter (fun r => wellFormed r && knownValidator store lib api r) payload.
Proof.
  intros H Hst. unfold handleRegisterValidator. rewrite H.
  pose proof (loop_verifications payload Hst api) as Hq.
  destruct (loop api payload) as [api' evs]. cbn [fst snd] in *.
  rewrite verifications_app. exact Hq.
Qed.

(** X8: with such a store, the store after the request is the store before
    it, updated by the entries that pass every check, in the order of the
    batch; the context and the signing domain of the API are untouched. *)
Theorem register_store_after
  (api : ProposerAPI DS) (w : http.ResponseWriter) (body : string)
  (payload : list SignedValidatorRegistration) :
  DecodeRegistrations lib body = inr payload ->
  membershipStable store ->
  datastore (fst (fst (handle api w body)))
  = updatedBy store (datastore api) (filter (passes api) payload)
  /\ ctx (fst (fst (handle api w body))) = ctx api
  /\ builderSigningDomain (fst (fst (handle api w body)))
     = builderSigningDomain api.
Proof.
  intros H Hst. unfold handleRegisterValidator. rewrite H.
  pose proof (loop_store payload Hst api) as Hq.
  destruct (loop api payload) as [api' evs]. exact Hq.
Qed.

End RegisterMore.

Lemma register_undecodable_body_witness :
  spec.answer
    (snd (proposer.handleRegisterValidator testing.memDatastore testing.lib0
            (testing.apiOn testing.store0) (http.NewWriter http.ServerConn) "[{"))
  = spec.clientError "invalid character"
  /\ fst (fst (proposer.handleRegisterValidator testing.memDatastore testing.lib0
                 (testing.apiOn testing.store0) (http.NewWriter http.ServerConn) "[{"))
     = testing.apiOn testing.store0
  /\ proposer.calls
       (snd (fst (proposer.handleRegisterValidator testing.memDatastore testing.lib0
                    (testing.apiOn testing.store0) (http.NewWriter http.ServerConn)
                    "[{")))
     = [].
Proof.
  apply (register_undecodable_body testing.memDatastore testing.lib0
           (testing.apiOn testing.store0) http.ServerConn "[{" "invalid character").
  reflexivity.
Defined.

Lemma register_split_batch_witness :
  let one := proposer.handleRegisterValidator testing.memDatastore fixtures.splitLib
               (testing.apiOn testing.store0) (http.NewWriter http.Recorder) "whole" in
  let fst_req := proposer.handleRegisterValidator testing.memDatastore
                   fixtures.splitLib (testing.apiOn testing.store0)
                   (http.NewWriter http.Recorder) "first" in
  let snd_req := proposer.handleRegisterValidator testing.memDatastore
                   fixtures.splitLib (fst (fst fst_req))
                   (http.NewWriter http.Recorder) "rest" in
  fst (fst one) = fst (fst snd_req)
  /\ proposer.calls (snd (fst one))
     = (proposer.calls (snd (fst fst_req)) ++ proposer.calls (snd (fst snd_req)))%list
  /\ spec.answer (snd one) = spec.answer (snd snd_req).
Proof.
  apply (register_split_batch testing.memDatastore fixtures.splitLib
           (testing.apiOn testing.store0) http.Recorder "whole" "first" "rest"
           fixtures.firstPart fixtures.secondPart); reflexivity.
Defined.

Lemma register_membership_queries_witness :
  observe.membershipQueries
    (snd (fst (proposer.handleRegisterValidator testing.memDatastore testing.lib0
                 (testing.apiOn testing.store0) (http.NewWriter http.ServerConn)
                 "batch")))
  = map (fun r => testing.hexOf (proposer.Pubkey (proposer.Message r)))
      (filter spec.wellFormed testing.batch).
Proof.
  apply (register_membership_queries testing.memDatastore testing.lib0
           (testing.apiOn testing.store0) (http.NewWriter http.ServerConn)
           "batch" testing.batch).
  reflexivity.
Defined.

Lemma register_signature_checks_witness :
  observe.verifications
    (snd (fst (proposer.handleRegisterValidator testing.memDatastore testing.lib0
                 (testing.apiOn testing.store0) (http.NewWriter http.ServerConn)
                 "batch")))
  = filter (fun r => spec.wellFormed r
                     && spec.knownValidator testing.memDatastore testing.lib0
                          (testing.apiOn testing.store0) r)
      testing.batch.
Proof.
  apply (register_signature_checks testing.memDatastore testing.lib0
           (testing.apiOn testing.store0) (http.NewWriter http.ServerConn)
           "batch" testing.batch).
  - reflexivity.
  - exact memDatastore_membershipStable.
Defined.

Lemma register_store_after_witness :
  proposer.datastore
    (fst (fst (proposer.handleRegisterValidator testing.memDatastore testing.lib0
                 (testing.apiOn testing.store0) (http.NewWriter http.ServerConn)
                 "batch")))
  = observe.updatedBy testing.memDatastore
      (proposer.datastore (testing.apiOn testing.store0))
      (filter (spec.passesEveryCheck testing.memDatastore testing.lib0
                 (testing.apiOn testing.store0)) testing.batch)
  /\ proposer.ctx
       (fst (fst (proposer.handleRegisterValidator testing.memDatastore testing.lib0
                    (testing.apiOn testing.store0) (http.NewWriter http.ServerConn)
                    "batch")))
     = proposer.ctx (testing.apiOn testing.store0)
  /\ proposer.builderSigningDomain
       (fst (fst (proposer.handleRegisterValidator testing.memDatastore testing.lib0
                    (testing.apiOn testing.store0) (http.NewWriter http.ServerConn)
                    "batch")))
     = proposer.builderSigningDomain (testing.apiOn testing.store0).
Proof.
  apply (register_store_after testing.memDatastore testing.lib0
           (testing.apiOn testing.store0) (http.NewWriter http.ServerConn)
           "batch" testing.batch).
  - reflexivity.
  - exact memDatastore_membershipStable.
Defined.

(** The batch of the test double, read off its trace: four membership
    queries, three signature checks, two registrations saved. *)
Lemma register_batch_counts :
  List.length
    (observe.membershipQueries
       (snd (fst (proposer.handleRegisterValidator testing.memDatastore testing.lib0
                    (testing.apiOn testing.store0) (http.NewWriter http.ServerConn)
                    "batch")))) = 4%nat
  /\ List.length
       (observe.verifications
          (snd (fst (proposer.handleRegisterValidator testing.memDatastore
                       testing.lib0 (testing.apiOn testing.store0)
                       (http.NewWriter http.ServerConn) "batch")))) = 3%nat
  /\ testing.saved
       (proposer.datastore
          (fst (fst (proposer.handleRegisterValidator testing.memDatastore
                       testing.lib0 (testing.apiOn testing.store0)
                       (http.NewWriter http.ServerConn) "batch"))))
     = [testing.otherGoodEntry; testing.goodEntry].
Proof. repeat split. Qed.

Section RegisterErrors.
Import proposer spec observe.
Context {DS : Type}.
Variable store : ProposerDatastore DS.
Variable lib : Libraries.

Lemma process_error_records (api : ProposerAPI DS) (r : SignedValidatorRegistration) :
  errorMessages (snd (processRegistration store lib api r))
  = map (fun _ => updateErrorMsg)
      (failedUpdates (snd (processRegistration store lib api r))).
Proof.
  destruct (wellFormed r) eqn:Hw;
    [|now rewrite process_malformed by assumption].
  destruct (knownValidator store lib api r) eqn:Hk;
    [|now rewrite process_unknown by assumption].
  destruct (validSignature lib api r) eqn:Hv;
    [|now rewrite process_unverified by assumption].
  rewrite process_accepted by assumption. cbn [snd].
  destruct (snd (UpdateValidatorRegistration store (datastore api) r)); reflexivity.
Qed.

Lemma loop_error_records (payload : list SignedValidatorRegistration) :
  forall api,
    errorMessages (snd (registerAll store lib api payload))
    = map (fun _ => updateErrorMsg)
        (failedUpdates (snd (registerAll store lib api payload))).
Proof.
  induction payload as [|r rest IH]; intros api; [reflexivity|].
  cbn [registerAll].
  pose proof (process_error_records api r) as Hp.
  destruct (processRegistration store lib api r) as [api1 evs1].
  specialize (IH api1).
  destruct (registerAll store lib api1 rest) as [api2 evs2]. cbn [fst snd] in *.
  unfold errorMessages, failedUpdates in *.
  rewrite !flat_map_app, map_app. congruence.
Qed.

(** X9: whatever the store answers to the updates, the request is
    answered 200, and the error records of its log are one
    [error updating validator registration] for each update the store
    refused, in order, and nothing else. *)
Theorem register_update_errors_logged
  (api : ProposerAPI DS) (k : http.WriterKind) (body : string)
  (payload : list SignedValidatorRegistration) :
  DecodeRegistrations lib body = inr payload ->
  let out := handleRegisterValidator store lib api (http.NewWriter k) body in
  errorMessages (snd (fst out))
  = map (fun _ => updateErrorMsg) (failedUpdates (snd (fst out)))
  /\ http.status (snd out) = Some 200.
Proof.
  intros H. cbv zeta. unfold handleRegisterValidator. rewrite H.
  pose proof (loop_error_records payload api) as Hq.
  destruct (registerAll store lib api payload) as [api' evs]. cbn [fst snd] in *.
  split; [|destruct k; reflexivity].
  unfold errorMessages, failedUpdates in *.
  rewrite !flat_map_app. exact Hq.
Qed.

End RegisterErrors.

(** X9, on a store that refuses every update: the two passing entries are
    attempted, both refusals are logged, and the answer is 200. *)
Lemma register_update_errors_logged_witness :
  let out := proposer.handleRegisterValidator testing.memDatastore testing.lib0
               (testing.apiOn fixtures.fullStore) (http.NewWriter http.ServerConn)
               "batch" in
  observe.errorMessages (snd (fst out))
  = map (fun _ => observe.updateErrorMsg) (observe.failedUpdates (snd (fst out)))
  /\ http.status (snd out) = Some 200.
Proof.
  apply (register_update_errors_logged testing.memDatastore testing.lib0
           (testing.apiOn fixtures.fullStore) http.ServerConn "batch" testing.batch).
  reflexivity.
Defined.

Lemma register_full_store_two_refusals :
  observe.failedUpdates
    (snd (fst (proposer.handleRegisterValidator testing.memDatastore testing.lib0
                 (testing.apiOn fixtures.fullStore) (http.NewWriter http.ServerConn)
                 "batch")))
  = [testing.goodEntry; testing.otherGoodEntry].
Proof. reflexivity. Qed.

(** ** The service *)
Section ServiceMore.
Import proposer spec.
Context {DS : Type}.
Variable store : ProposerDatastore DS.

Local Abbreviation Start := (proposer.Start store).
Local Abbreviation run := (proposer.run store).
Local Abbreviation step := (proposer.step store).

(** X10: on a service not started before, over the whole life of the
    service [Start] and its goroutine call the refresh of the store once
    at least and twice at most, whatever happens around the service and
    however long. *)
Theorem Start_refresh_count_bounds (s : Service DS) (es : list Env) :
  refresher s = NotStarted ->
  (S (refreshes s) <= refreshes (run (fst (Start s)) es) <= refreshes s + 2)%nat.
Proof.
  intros Hn.
  pose proof (refreshes_at_most_two store s es Hn) as Hhi.
  destruct (run_keeps store es (fst (Start s))) as (_ & Hlo & _).
  rewrite (Start_refreshes_once store s) in Hlo. lia.
Qed.



End ServiceMore.

Lemma Start_refresh_count_bounds_witness :
  (S (proposer.refreshes (testing.serviceOn testing.store0))
   <= proposer.refreshes
        (proposer.run testing.memDatastore
           (fst (proposer.Start testing.memDatastore
                   (testing.serviceOn testing.store0)))
           [proposer.TickerFires; proposer.CallStop; proposer.TickerFires;
            proposer.TickerFires])
   <= proposer.refreshes (testing.serviceOn testing.store0) + 2)%nat.
Proof.
  apply (Start_refresh_count_bounds testing.memDatastore
           (testing.serviceOn testing.store0)
           [proposer.TickerFires; proposer.CallStop; proposer.TickerFires;
            proposer.TickerFires]).
  reflexivity.
Defined.


(** ** The constructors *)
Section ConstructorsMore.
Import proposer common.

(** X13: [NewProposerAPI] returns nil exactly when the logger or the
    datastore is nil, the logger being checked first; otherwise it returns
    the API object even when the signing domain cannot be computed,
    together with the error of that computation. A nil context is
    replaced by the background context, which is never cancelled. *)
Theorem NewProposerAPI_result {DS : Type}
  (computeDomain : string -> bytes * error)
  (ctx : option Context) (log : option LogEntry) (ds : option DS)
  (genesisForkVersionHex : string) :
  let r := NewProposerAPI computeDomain ctx log ds genesisForkVersionHex in
  (fst r = None <-> log = None \/ ds = None)
  /\ (log = None -> snd r = Some "log parameter is nil")
  /\ (log <> None -> ds = None ->
      snd r = Some "proposer API datastore parameter is nil")
  /\ (forall l d, log = Some l -> ds = Some d ->
      snd r = snd (computeDomain genesisForkVersionHex)
      /\ exists c,
           fst r = Some c
           /\ datastore (object c) = d
           /\ builderSigningDomain (object c)
              = fst (computeDomain genesisForkVersionHex)
           /\ proposer.ctx (object c)
              = match ctx with Some c0 => c0 | None => Background end
           /\ fields (Log c) = ("module", "api/proposer") :: fields l)
  /\ (ctx = None -> forall c, fst r = Some c ->
      cancelled (proposer.ctx (object c)) = false).
Proof.
  cbv zeta. unfold NewProposerAPI, ComputerBuilderSigningDomain.
  destruct log as [l|], ds as [d|]; cbn [fst snd].
  - destruct (computeDomain genesisForkVersionHex) as [domain err]. cbn [fst snd].
    split; [split; [discriminate | intros [H | H]; discriminate]|].
    split; [discriminate|]. split; [discriminate|]. split.
    + intros l0 d0 Hl Hd. inversion Hl; inversion Hd; subst.
      split; [reflexivity|]. eexists. repeat split.
    + intros -> c Hc. inversion Hc. reflexivity.
  - split; [split; [now right | reflexivity]|].
    split; [discriminate|]. split; [reflexivity|].
    split; [discriminate | discriminate].
  - split; [split; [now left | reflexivity]|].
    split; [reflexivity|]. split; [intros H; now elim H|].
    split; [discriminate | discriminate].
  - split; [split; [now left | reflexivity]|].
    split; [reflexivity|]. split; [intros H; now elim H|].
    split; [discriminate | discriminate].
Qed.

(** X14: [NewBuilderEntry] never decodes the public key and never returns
    an entry: its outcome does not depend on the hex decoder, it returns
    only when the URL parser fails, and then nil with the parser's error. *)
Theorem NewBuilderEntry_returns_no_entry
  (url_Parse : string -> option url.URL * error)
  (decode decode' : string -> string + bytes) (builderURL : string) :
  NewBuilderEntry url_Parse decode builderURL
  = NewBuilderEntry url_Parse decode' builderURL
  /\ (forall entry err,
        NewBuilderEntry url_Parse decode builderURL <> Go.Returns (Some entry, err))
  /\ (forall result,
        NewBuilderEntry url_Parse decode builderURL = Go.Returns result ->
        exists e, snd (url_Parse (withScheme builderURL)) = Some e
                  /\ result = (None, Some e)).
Proof.
  unfold NewBuilderEntry. cbv zeta.
  destruct (url_Parse (withScheme builderURL)) as [u [e|]]; cbn [snd].
  - split; [reflexivity|]. split; [discriminate|].
    intros result H. inversion H. now exists e.
  - split; [reflexivity|]. split; discriminate.
Qed.

(** X15: the address handed to the URL parser always starts with [http];
    an address that starts with [http] already is handed over as it is,
    so putting the scheme in front twice is the same as once. *)
Theorem withScheme_idempotent (builderURL : string) :
  String.prefix "http" (withScheme builderURL) = true
  /\ (String.prefix "http" builderURL = true -> withScheme builderURL = builderURL)
  /\ (String.prefix "http" builderURL = false ->
      withScheme builderURL = "http://" ++ builderURL)
  /\ withScheme (withScheme builderURL) = withScheme builderURL.
Proof.
  assert (H : String.prefix "http" (withScheme builderURL) = true).
  { unfold withScheme. destruct (String.prefix "http" builderURL) eqn:E;
      [exact E | reflexivity]. }
  split; [exact H|].
  split; [intros E; unfold withScheme; now rewrite E|].
  split; [intros E; unfold withScheme; now rewrite E|].
  unfold withScheme at 1. now rewrite H.
Qed.

End ConstructorsMore.

(** X13, with a fork version the domain computation refuses: the object
    comes back together with the error. *)
Lemma NewProposerAPI_result_witness :
  snd (proposer.NewProposerAPI fixtures.domainOf None (Some fixtures.logger)
         (Some testing.store0) "0xzz")
  = Some "invalid fork version"
  /\ exists c,
       fst (proposer.NewProposerAPI fixtures.domainOf None (Some fixtures.logger)
              (Some testing.store0) "0xzz") = Some c
       /\ proposer.datastore (proposer.object c) = testing.store0
       /\ proposer.builderSigningDomain (proposer.object c) = []
       /\ proposer.ctx (proposer.object c) = proposer.Background
       /\ proposer.fields (proposer.Log c)
          = [("module", "api/proposer"); ("service", "relay")].
Proof.
  apply (proj1 (proj2 (proj2 (proj2 (NewProposerAPI_result fixtures.domainOf None
                                        (Some fixtures.logger)
                                        (Some testing.store0) "0xzz"))))
           fixtures.logger testing.store0); reflexivity.
Defined.

(** X14, at an address that parses and at one that does not. *)
Lemma NewBuilderEntry_returns_no_entry_witness :
  common.NewBuilderEntry testing.parseTable testing.unhex "https://0xaa@relay.example"
  = common.NewBuilderEntry testing.parseTable (fun _ => inl "unused")
      "https://0xaa@relay.example"
  /\ exists e,
       snd (testing.parseTable (common.withScheme "%%")) = Some e
       /\ (None : option common.BuilderEntry, Some "parse error") = (None, Some e).
Proof.
  split.
  - apply (proj1 (NewBuilderEntry_returns_no_entry testing.parseTable testing.unhex
                    (fun _ => inl "unused") "https://0xaa@relay.example")).
  - apply (proj2 (proj2 (NewBuilderEntry_returns_no_entry testing.parseTable
                           testing.unhex testing.unhex "%%"))).
    reflexivity.
Defined.
